(** * Hawk-Eye AI impersonation detector: a shallow embedding of
    [AlgoAlchemy/app.py] and the properties of its scoring core.

    Conventions of the embedding.

    - A Python [str] is a [string]; each [ascii] is one code point below 256
      (the Latin-1 range of Unicode), on which [str.lower] and [str.strip] are
      modelled exactly.  Literals of the source that hold an emoji keep it as
      its UTF-8 bytes; they are only returned or embedded, never inspected.
    - A Python [int] is a [Z]; a Python [float] is a binary64 [float]
      (the kernel's primitive type), so that [25 / 60], [0.99] and the
      comparisons on them are the IEEE ones the interpreter performs.
    - The module [random] is a state-passing interface [Random]: every draw
      takes the generator state and returns the outcome and the next state.
      The interface carries the documented range of each draw and nothing
      about its distribution. *)

From Stdlib Require Import ZArith Lia Bool List String Ascii Floats.
From Stdlib Require Import DecimalString.
Import ListNotations.

Set Warnings "-inexact-float".

Local Open Scope bool_scope.
Local Open Scope string_scope.
Local Open Scope Z_scope.

(** ** Python built-ins on [str] *)

Module Py.

(** [c.lower()] for one code point below 256: the ASCII capitals and the
    Latin-1 capitals (U+00C0..U+00DE without the multiplication sign U+00D7)
    move up by 32; every other code point is its own lower case. *)
Definition lower_char (c : ascii) : ascii :=
  let n := N_of_ascii c in
  if ((65 <=? n) && (n <=? 90))%N
     || ((192 <=? n) && (n <=? 222) && negb (n =? 215))%N
  then ascii_of_N (n + 32)
  else c.

(** [s.lower()] *)
Fixpoint lower (s : string) : string :=
  match s with
  | EmptyString => EmptyString
  | String c s' => String (lower_char c) (lower s')
  end.

(** [c.isspace()] for one code point below 256: TAB..CR, FS..US, space,
    NEL (U+0085) and the no-break space (U+00A0). *)
Definition isspace (c : ascii) : bool :=
  let n := N_of_ascii c in
  (((9 <=? n) && (n <=? 13)) || ((28 <=? n) && (n <=? 32))
   || (n =? 133) || (n =? 160))%N.

(** [s.lstrip()] *)
Fixpoint lstrip (s : string) : string :=
  match s with
  | EmptyString => EmptyString
  | String c s' => if isspace c then lstrip s' else s
  end.

(** [s.rstrip()] *)
Fixpoint rstrip (s : string) : string :=
  match s with
  | EmptyString => EmptyString
  | String c s' =>
      match rstrip s' with
      | EmptyString => if isspace c then EmptyString else String c EmptyString
      | r => String c r
      end
  end.

(** [s.strip()] *)
Definition strip (s : string) : string := rstrip (lstrip s).

(** [s.replace(old, new, count)] for one-character [old] and [new]: the first
    [count] occurrences of [old], from the left, become [new]. *)
Fixpoint replace (old new : ascii) (count : nat) (s : string) : string :=
  match count, s with
  | O, _ => s
  | _, EmptyString => EmptyString
  | S k, String c s' =>
      if Ascii.eqb c old then String new (replace old new k s')
      else String c (replace old new count s')
  end.

(** [sub in s]: substring test. *)
Fixpoint contains (sub s : string) : bool :=
  prefix sub s
  || match s with
     | EmptyString => false
     | String _ s' => contains sub s'
     end.

(** [sum(a != b for a, b in zip(s, t))]: [zip] stops at the shorter string. *)
Fixpoint mismatches (s t : string) : Z :=
  match s, t with
  | String a s', String b t' =>
      (if Ascii.eqb a b then 0 else 1) + mismatches s' t'
  | _, _ => 0
  end.

(** [len(s)] *)
Definition len (s : string) : Z := Z.of_nat (String.length s).

(** [str(n)] and [f"{n}"] for an [int]. *)
Definition str_of_int (n : Z) : string :=
  NilZero.string_of_int (Z.to_int n).

(** [s.replace(old, new)] for an empty [old]: [new] goes before every
    character and after the last. *)
Fixpoint replace_empty (new s : string) : string :=
  match s with
  | EmptyString => new
  | String c s' => new ++ String c (replace_empty new s')
  end.

(** [s.replace(old, new)] for a non-empty [old], scanning from the left:
    [skip] counts the characters of a match still to be dropped. *)
Fixpoint replace_from (old new : string) (skip : nat) (s : string) : string :=
  match s with
  | EmptyString => EmptyString
  | String c s' =>
      match skip with
      | S k => replace_from old new k s'
      | O =>
          if prefix old s
          then new ++ replace_from old new (String.length old - 1) s'
          else String c (replace_from old new 0 s')
      end
  end.

(** [s.replace(old, new)]: every occurrence, from the left, without
    overlap. *)
Definition replace_all (old new s : string) : string :=
  match old with
  | EmptyString => replace_empty new s
  | _ => replace_from old new 0 s
  end.

(** [s.split(sep)[0]] for a one-character [sep]: the text before the first
    [sep], the whole of [s] when there is none. *)
Fixpoint split_head (sep : ascii) (s : string) : string :=
  match s with
  | EmptyString => EmptyString
  | String c s' =>
      if Ascii.eqb c sep then EmptyString else String c (split_head sep s')
  end.

(** [not s] for a [str]: true on the empty string only. *)
Definition is_empty (s : string) : bool :=
  match s with EmptyString => true | _ => false end.

End Py.

(** ** Configuration *)

Definition OFFICIAL_HANDLE : string := "Odisha_Police".
Definition OFFICIAL_NAME : string := "Odisha Police".
Definition RISK_THRESHOLD_HIGH : Z := 70.
Definition RISK_THRESHOLD_MEDIUM : Z := 40.

(** ** Similarity Evaluator *)

Definition get_similarity_score (suspect_handle official_handle : string)
  : float :=
  let suspect_lower := Py.strip (Py.lower suspect_handle) in
  let official_lower := Py.strip (Py.lower official_handle) in
  if (suspect_lower =? official_lower)%string then 1.0%float
  else if (Py.replace "0" "o" 1 suspect_lower =? official_lower)%string
          && Py.contains "0" suspect_lower
  then 0.99%float
  else if (Py.len suspect_handle =? Py.len official_handle)
          && (Py.mismatches suspect_lower official_lower =? 1)
  then 0.90%float
  else 0.20%float.

(** ** Keyword Scanner *)

Definition fraud_keywords : list string :=
  [ "otp"; "wallet"; "send money"; "urgent funds"; "transfer now"; "fine";
    "penalty"; "account frozen"; "kyc update"; "click link"; "tax refund";
    "jail" ].

(** The local [risk] of [keyword_scan_score] when the function reaches its
    [return]: 25 for the urgent-money phrase, then the loop over
    [fraud_keywords]. *)
Definition keyword_scan_risk (post_content : string) : Z :=
  let risk := 0 in
  let risk :=
    if Py.contains "urgent" (Py.lower post_content)
       && (Py.contains "money" (Py.lower post_content)
           || Py.contains "fund" (Py.lower post_content))
    then risk + 25 else risk in
  fold_left
    (fun risk keyword =>
       if Py.contains keyword (Py.lower post_content) then risk + 15 else risk)
    fraud_keywords risk.

Definition keyword_scan_score (post_content : string) : Z :=
  Z.min (keyword_scan_risk post_content) 60.

(** ** Python built-ins on [float] *)

Module PyFloat.

(** The conversion of an [int] operand of a float operation; exact below
    [2^53], which covers every integer this program converts. *)
Definition of_int (n : Z) : float :=
  if n <? 0 then (- PrimFloat.of_uint63 (Uint63.of_Z (- n)))%float
  else PrimFloat.of_uint63 (Uint63.of_Z n).

(** [int(x)]: truncation toward zero.  The interpreter raises on an infinity
    or a NaN; these map to 0 here, and the one call of the program is on a
    finite operand. *)
Definition to_int (x : float) : Z :=
  match Prim2SF x with
  | S754_finite s m e =>
      let a := if 0 <=? e then Z.pos m * 2 ^ e else Z.pos m / 2 ^ (- e) in
      if s then - a else a
  | _ => 0
  end.

(** The integer nearest to [p / q], ties to the even one ([0 < q]). *)
Definition round_half_even (p q : Z) : Z :=
  let d := p / q in
  let r := p mod q in
  if 2 * r <? q then d
  else if q <? 2 * r then d + 1
  else if Z.even d then d else d + 1.

(** [round(x, 2)]: the binary64 nearest to the two-decimal number nearest to
    the exact value of [x] (ties to even), as the interpreter computes it
    through a correctly rounded decimal conversion and back.  The exact value
    of a finite [x] is [m * 2^e]; from [e >= -6] on, two neighbouring floats
    are more than 0.01 apart and [x] is its own rounding. *)
Definition round2 (x : float) : float :=
  match Prim2SF x with
  | S754_finite s m e =>
      if -6 <=? e then x
      else
        let n := round_half_even (Z.pos m * 100) (2 ^ (- e)) in
        let r := (of_int n / 100)%float in
        if s then (- r)%float else r
  | _ => x
  end.

End PyFloat.

(** ** The random source *)

(** [random.randint(a, b)] returns an integer [N] with [a <= N <= b];
    [random.uniform(a, b)] returns a float [N] with [a <= N <= b].  Both
    advance the state of the generator. *)
Class Random (rng : Type) : Type := {
  randint : Z -> Z -> rng -> Z * rng;
  uniform : float -> float -> rng -> float * rng;
  randint_range : forall a b g,
      a <= b -> a <= fst (randint a b g) <= b;
  uniform_range : forall a b g,
      (a <=? b)%float = true ->
      (a <=? fst (uniform a b g))%float = true
      /\ (fst (uniform a b g) <=? b)%float = true
}.

(** Computations that draw from the generator. *)
Definition Rand (rng A : Type) : Type := rng -> A * rng.

Definition ret {rng A : Type} (a : A) : Rand rng A := fun g => (a, g).

Definition bind {rng A B : Type} (c : Rand rng A) (k : A -> Rand rng B)
  : Rand rng B :=
  fun g => let (a, g') := c g in k a g'.

Notation "x <- c ;; k" := (bind c (fun x => k))
  (at level 61, c at next level, right associativity).

(** ** Risk Aggregator *)

(** The values of a RiskBreakdown: [int] or [float]. *)
Inductive value : Type :=
| VInt (n : Z)
| VFloat (x : float).

(** A [dict] with [str] keys, in insertion order. *)
Definition breakdown : Type := list (string * value).

(** [d.get(key)] *)
Fixpoint get (d : breakdown) (key : string) : option value :=
  match d with
  | [] => None
  | (k, v) :: d' => if (k =? key)%string then Some v else get d' key
  end.

Section Aggregator.

Context {rng : Type} `{Random rng}.

Definition calculate_risk_score
    (handle recent_posts : string) (is_established_account : bool)
    (domain_age_risk profile_pic_stolen urgency_tone_risk
       phishing_link_risk : string)
  : Rand rng (Z * breakdown) :=
  (* 1. Identity Module *)
  let identity_score := get_similarity_score handle OFFICIAL_HANDLE in
  identity_risk <-
    (if (identity_score =? 1.0)%float then ret 0
     else if (identity_score =? 0.99)%float then
       r <- randint 0 2 ;; ret (43 + r)
     else if (identity_score =? 0.90)%float then
       r <- randint 0 5 ;; ret (25 + r)
     else
       r <- randint 0 5 ;; ret (5 + r)) ;;
  (* Confidence Score *)
  confidence_score <-
    (if (identity_score =? 1.0)%float || (identity_score <=? 0.20)%float
     then uniform 90.0 99.9
     else if (0.90 <=? identity_score)%float then uniform 70.0 89.9
     else uniform 50.0 69.9) ;;
  (* 2. Behavioral Module *)
  let behavior_risk_raw := keyword_scan_score recent_posts in
  let urgency_points :=
    if (urgency_tone_risk =? "High Urgency (Threat/Panic)")%string then 15
    else if (urgency_tone_risk =? "Medium Urgency (Time Pressure)")%string
    then 7
    else 0 in
  let keyword_points :=
    PyFloat.to_int (PyFloat.of_int behavior_risk_raw * (25 / 60))%float in
  let behavior_risk := keyword_points + urgency_points in
  let behavior_risk := Z.min behavior_risk 40 in
  (* 3. Network/Metadata Score *)
  let network_risk := 0 in
  account_age_days <- randint 300 500 ;;
  na <-
    (if negb is_established_account then
       r <- randint 0 2 ;;
       d <- randint 1 90 ;;
       ret (network_risk + (5 + r), d)
     else ret (network_risk, account_age_days)) ;;
  let network_risk := fst na in
  let account_age_days := snd na in
  let domain_age_points :=
    if (domain_age_risk =? "High Risk (New/Suspicious Domain)")%string then 3
    else if (domain_age_risk =? "Medium Risk (Recently Updated Domain)")%string
    then 1
    else 0 in
  let phishing_points :=
    if (phishing_link_risk =? "Homoglyph/Typosquatting Detected")%string then 3
    else if (phishing_link_risk =? "Malicious Domain Structure Detected")%string
    then 1
    else 0 in
  let stolen_pic_points :=
    if (profile_pic_stolen =? "Yes (Stolen/Official Image Match)")%string
    then 4 else 0 in
  let network_risk :=
    network_risk + (domain_age_points + phishing_points + stolen_pic_points) in
  let network_risk := Z.min network_risk 15 in
  let final_score_raw := identity_risk + behavior_risk + network_risk in
  (* jitter and cap *)
  jitter <- randint (-5) 5 ;;
  let final_score := Z.min (final_score_raw + jitter) 100 in
  let final_score := Z.max final_score 0 in
  ret (final_score,
       [ ("Handle Similarity Score (%)",
          VFloat (PyFloat.round2 (identity_score * 100)%float));
         ("Identity Risk Points (Max 45)", VInt identity_risk);
         ("Keyword Scan Points (Max 25)", VInt keyword_points);
         ("Urgency Tone Points (Max 15)", VInt urgency_points);
         ("Behavioral Risk Points (Max 40)", VInt behavior_risk);
         ("Network/Metadata Risk Points (Max 15)", VInt network_risk);
         ("Account Age (Days)", VInt account_age_days);
         ("Domain Age Risk Points", VInt domain_age_points);
         ("Phishing Link Points", VInt phishing_points);
         ("Stolen Picture Risk Points", VInt stolen_pic_points);
         ("Confidence Score (%)",
          VFloat (PyFloat.round2 confidence_score)) ]).

End Aggregator.

(** ** Action Advisor *)

Definition get_action_suggestion (risk_score : Z) : string * string * string :=
  if RISK_THRESHOLD_HIGH <=? risk_score then
    ("🚨 *IMMEDIATE TAKEDOWN & FORENSIC TRACE:* Initiate platform-specific emergency takedown protocol. Begin forensic tracing of associated wallet addresses and IP logs.",
     "error",
     "HIGH RISK: IMMEDIATE TAKEDOWN REQUIRED")
  else if RISK_THRESHOLD_MEDIUM <=? risk_score then
    ("⚠ *MANDATORY MANUAL REVIEW & MONITORING:* Escalate to a Level 2 Analyst for mandatory human review. Set up automated monitoring for further post activity over the next 48 hours.",
     "warning",
     "MEDIUM RISK: INVESTIGATE URGENTLY")
  else
    ("✅ *SCHEDULED RE-EVALUATION:* No immediate action required. Profile will be marked for re-evaluation in 7 days to check for any changes in risk factors or behavioral patterns.",
     "info",
     "LOW RISK: MONITOR").

(** ** Report Renderer *)

(** The double-quote character of the template. *)
Definition dq : string := String (ascii_of_nat 34) EmptyString.

(** The colour of the report, keyed to the score. *)
Definition risk_color (final_score : Z) : string :=
  if RISK_THRESHOLD_HIGH <=? final_score then "#CC0000"
  else if RISK_THRESHOLD_MEDIUM <=? final_score then "#FFCC00"
  else "#008000".

Section Report.

(** [str(x)] of a [float], as the f-string prints it; the digits it chooses
    are not modelled. *)
Variable float_str : float -> string.

(** [time.strftime('%Y-%m-%d %H:%M:%S')] at the time of the call. *)
Variable timestamp : string.

(** What [f"{breakdown.get(key)}"] prints. *)
Definition fmt (v : option value) : string :=
  match v with
  | None => "None"
  | Some (VInt n) => Py.str_of_int n
  | Some (VFloat x) => float_str x
  end.

(** The f-string of the source, piece by piece: literal text, [dq] for each
    double quote of the text, and the substituted expressions. *)
Definition create_html_report
    (final_score : Z) (breakdown : breakdown)
    (suspect_url suspect_handle suspect_posts suggestion_text
       risk_label : string)
  : string :=
  let risk_color := risk_color final_score in
  let confidence :=
    match get breakdown "Confidence Score (%)" with
    | Some v => fmt (Some v)
    | None => "N/A"
    end in
  String.concat ""
    [ "
    <!DOCTYPE html>
    <html lang="; dq; "en"; dq; ">
    <head>
        <meta charset="; dq; "UTF-8"; dq; ">
        <title>Hawk-Eye AI Forensic Report</title>
        <style>
            /* Professional, clean CSS structure for printing */
            body { font-family: Arial, sans-serif; margin: 0; padding: 20px; color: #333; line-height: 1.6; }
            .container { width: 850px; margin: 0 auto; border: 1px solid #ccc; padding: 30px; box-shadow: 0 0 10px rgba(0,0,0,0.1); }
            
            /* Header */
            .header { background-color: #2c3e50; color: white; padding: 20px; text-align: center; margin-bottom: 20px; border-radius: 5px; }
            .header h1 { margin: 0; font-size: 26px; }
            .header p { margin: 5px 0 0; font-size: 14px; opacity: 0.9; }
            
            /* Section Styling */
            h2 { border-bottom: 2px solid #3498db; padding-bottom: 5px; margin-top: 25px; color: #34495e; font-size: 20px; }
            
            /* Risk Summary Box */
            .risk-summary-box { 
                display: flex; 
                justify-content: space-between; 
                align-items: center;
                padding: 15px 20px; 
                margin-bottom: 20px; 
                border-radius: 8px; 
                border: 2px solid "; risk_color; ";
                background-color: #f4f6f7;
            }
            .risk-score { font-size: 36px; font-weight: bold; color: "; risk_color; "; }
            .risk-label { font-size: 20px; font-weight: bold; color: #333; }
            
            /* Table Styling */
            table { width: 100%; border-collapse: collapse; margin-top: 10px; }
            th, td { border: 1px solid #ddd; padding: 12px; text-align: left; font-size: 14px; }
            th { background-color: #ecf0f1; color: #34495e; }
            .value-column { font-weight: bold; width: 30%; }

            /* Action Suggestion Box */
            .action-suggestion {
                background-color: #fcf8e3;
                border: 1px solid #f9d863;
                color: #8a6d3b;
                padding: 15px;
                margin-top: 15px;
                border-radius: 5px;
            }

            /* Post Content Block */
            .post-content { 
                background-color: #ecf0f1; 
                border-left: 5px solid #3498db; 
                padding: 15px; 
                margin-top: 10px;
                white-space: pre-wrap;
                font-style: italic;
            }

            /* Footer */
            .footer { text-align: center; margin-top: 40px; font-size: 12px; color: #7f8c8d; }

            /* Specific styling for the risk label color */
            .risk-value { color: "; risk_color; "; }
        </style>
    </head>
    <body>
        <div class="; dq; "container"; dq; ">
            <div class="; dq; "header"; dq; ">
                <h1>🚨 HAWK-EYE AI FORENSIC REPORT</h1>
                <p>Instant Deception Detector | Generated on: "; timestamp; "</p>
            </div>

            <h2>1. Final Impersonation Risk Summary</h2>
            <div class="; dq; "risk-summary-box"; dq; ">
                <div>
                    <div class="; dq; "risk-label"; dq; ">Risk Level:</div>
                    <div class="; dq; "risk-score risk-value"; dq; ">"; risk_label; "</div>
                </div>
                <div style="; dq; "text-align: right;"; dq; ">
                    <div class="; dq; "risk-label"; dq; ">Calculated Risk Score:</div>
                    <div class="; dq; "risk-score risk-value"; dq; ">"; Py.str_of_int final_score; "%</div>
                </div>
            </div>
            
            <div class="; dq; "action-suggestion"; dq; ">
                <strong>Action Suggestion:</strong> "; suggestion_text; "
            </div>

            <h2>2. Suspect Profile & Reference</h2>
            <table>
                <tr>
                    <th>Field</th>
                    <th class="; dq; "value-column"; dq; ">Value</th>
                </tr>
                <tr>
                    <td>*Suspect URL*</td>
                    <td class="; dq; "value-column"; dq; "><a href="; dq; suspect_url; dq; " target="; dq; "_blank"; dq; ">"; suspect_url; "</a></td>
                </tr>
                <tr>
                    <td>*Suspect Handle*</td>
                    <td class="; dq; "value-column"; dq; ">"; suspect_handle; "</td>
                </tr>
                <tr>
                    <td>*Official Handle Reference*</td>
                    <td class="; dq; "value-column"; dq; ">"; OFFICIAL_HANDLE; "</td>
                </tr>
            </table>

            <h2>3. Detailed Risk Breakdown (Max 100 Points)</h2>
            <table>
                <tr>
                    <th>Risk Factor</th>
                    <th>Score Detail</th>
                    <th class="; dq; "value-column"; dq; ">Points Earned</th>
                </tr>
                <tr>
                    <td>*Identity Risk (Max 45)*</td>
                    <td>Handle Similarity: "; fmt (get breakdown "Handle Similarity Score (%)"); "%</td>
                    <td class="; dq; "value-column"; dq; ">"; fmt (get breakdown "Identity Risk Points (Max 45)"); "</td>
                </tr>
                <tr>
                    <td>*Behavioral Risk (Max 40)*</td>
                    <td>
                        Keyword Scan Points: "; fmt (get breakdown "Keyword Scan Points (Max 25)"); "<br>
                        *Urgency Tone Points (NEW)*: "; fmt (get breakdown "Urgency Tone Points (Max 15)"); "
                    </td>
                    <td class="; dq; "value-column"; dq; ">"; fmt (get breakdown "Behavioral Risk Points (Max 40)"); "</td>
                </tr>
                <tr>
                    <td>*Network/Metadata Risk (Max 15)*</td>
                    <td>
                        Account Age: "; fmt (get breakdown "Account Age (Days)"); " days<br>
                        Domain Age Risk Points: "; fmt (get breakdown "Domain Age Risk Points"); "<br>
                        *Phishing Link Points (NEW)*: "; fmt (get breakdown "Phishing Link Points"); "<br>
                        Stolen Pic Risk Points: "; fmt (get breakdown "Stolen Picture Risk Points"); "
                    </td>
                    <td class="; dq; "value-column"; dq; ">"; fmt (get breakdown "Network/Metadata Risk Points (Max 15)"); "</td>
                </tr>
                <tr>
                    <td style="; dq; "background-color: #dbe4f1; font-weight: bold;"; dq; ">*AI Confidence Score*</td>
                    <td style="; dq; "background-color: #dbe4f1;"; dq; ">Model's certainty in the calculated risk.</td>
                    <td class="; dq; "value-column"; dq; " style="; dq; "background-color: #dbe4f1;"; dq; ">"; confidence; "%</td>
                </tr>
                <tr style="; dq; "background-color: #e5e7e9; font-weight: bold;"; dq; ">
                    <td>*TOTAL RISK SCORE*</td>
                    <td></td>
                    <td class="; dq; "value-column"; dq; ">"; Py.str_of_int final_score; " / 100</td>
                </tr>
            </table>

            <h2>4. Evidential Content</h2>
            <p><strong>Recent Post Content Scanned:</strong></p>
            <div class="; dq; "post-content"; dq; ">
                "; suspect_posts; "
            </div>

            <div class="; dq; "footer"; dq; ">
                This document is a machine-generated forensic snapshot and is intended for official use only.
            </div>
        </div>
    </body>
    </html>
    " ].

End Report.

(** ** Interactive Shell *)

(** The style sheet of the dashboard. *)
Definition DASHBOARD_CSS : string :=
  "
<style>
.stApp {
    background-color: #0d1117;
    color: #c9d1d9;
}
h1, h2, h3, .stButton>button {
    color: #58a6ff;
}

/* FIX: This targets all main widget labels (text inputs, text areas, select boxes) */
.stApp label {
    color: #c9d1d9 !important; /* Light gray color for visibility on dark background */
    font-weight: 500;
}

/* NEW FIX: Specifically targeting the text of radio button options to ensure white color */
div[data-testid*=" ++ dq ++ "stRadio" ++ dq ++ "] label p {
    color: white !important;
}

.stMetric {
    background-color: #161b22;
    padding: 15px;
    border-radius: 10px;
    border: 1px solid #30363d;
}
/* Style for colored risk badges */
.risk-high {
    background-color: #6d0a0a;
    color: white;
    padding: 10px;
    border-radius: 5px;
    font-weight: bold;
    text-align: center;
}
.risk-medium {
    background-color: #d1b10a;
    color: black;
    padding: 10px;
    border-radius: 5px;
    font-weight: bold;
    text-align: center;
}
.risk-low {
    background-color: #1f643f;
    color: white;
    padding: 10px;
    border-radius: 5px;
    font-weight: bold;
    text-align: center;
}
.header-box {
    background-color: #161b22;
    padding: 20px;
    border-radius: 10px;
    border-bottom: 3px solid #58a6ff;
    margin-bottom: 20px;
}
</style>
".

(** The class of the risk banner:
    [risk_label.split(":")[0].lower().replace(" risk", "").replace(" ", "-")]. *)
Definition css_class (risk_label : string) : string :=
  Py.replace_all " " "-"
    (Py.replace_all " risk" ""
       (Py.lower (Py.split_head ":" risk_label))).

(** The banner: [f'<div class="risk-{css_class}">... {risk_label}</div>']. *)
Definition risk_banner (risk_label : string) : string :=
  "<div class=" ++ dq ++ "risk-" ++ css_class risk_label ++ dq ++ ">🛑 "
  ++ risk_label ++ "</div>".

(** [st.session_state]: each key is present with a value, or absent. *)
Record session_state : Type := {
  ss_final_score : option Z;
  ss_breakdown : option breakdown;
  ss_suspect_url : option string;
  ss_suspect_handle : option string;
  ss_suspect_posts : option string
}.

Definition empty_session : session_state :=
  {| ss_final_score := None; ss_breakdown := None; ss_suspect_url := None;
     ss_suspect_handle := None; ss_suspect_posts := None |}.

(** The values of the form's widgets when the button is pressed. *)
Record form : Type := {
  f_suspect_url : string;
  f_suspect_handle : string;
  f_suspect_posts : string;
  f_urgency_tone_risk : string;
  f_phishing_link_risk : string;
  f_risk_profile_selection : string;
  f_profile_pic_stolen : string;
  f_domain_age_risk : string
}.

(** The message the handler shows: [st.error] or [st.success]. *)
Inductive notice : Type :=
| NoticeError (text : string)
| NoticeSuccess (text : string).

(** A cell of the breakdown table: a looked-up value, or formatted text. *)
Inductive cell : Type :=
| CellValue (v : option value)
| CellText (text : string).

(** What the results block puts on the page. *)
Record view : Type := {
  v_score_metric : string;
  v_confidence_metric : string;
  v_banner : string;
  v_advice_style : string;
  v_advice_text : string;
  v_table : list (string * cell);
  v_download : string
}.

(** The results block shows nothing, fails on an absent key, or shows a
    view. *)
Inductive display : Type :=
| Hidden
| Failure
| Shown (v : view).

Section Shell.

Context {rng : Type} `{Random rng}.

Variable float_str : float -> string.
Variable timestamp : string.

(** The body of [if st.button("RUN HAWK-EYE ANALYSIS", ...)]; the spinner and
    the two-second sleep leave no trace in the state. *)
Definition on_run_click (f : form) (st : session_state)
  : Rand rng (session_state * notice) :=
  let is_established_account :=
    (f_risk_profile_selection f
     =? "Low Risk Profile (Established Account)")%string in
  if Py.is_empty (f_suspect_url f) || Py.is_empty (f_suspect_handle f)
     || Py.is_empty (f_suspect_posts f)
  then
    ret ({| ss_final_score := None;
            ss_breakdown := ss_breakdown st;
            ss_suspect_url := ss_suspect_url st;
            ss_suspect_handle := ss_suspect_handle st;
            ss_suspect_posts := ss_suspect_posts st |},
         NoticeError
           "⚠ Please fill in all input fields to run the analysis.")
  else
    r <- calculate_risk_score (f_suspect_handle f) (f_suspect_posts f)
           is_established_account (f_domain_age_risk f)
           (f_profile_pic_stolen f) (f_urgency_tone_risk f)
           (f_phishing_link_risk f) ;;
    ret ({| ss_final_score := Some (fst r);
            ss_breakdown := Some (snd r);
            ss_suspect_url := Some (f_suspect_url f);
            ss_suspect_handle := Some (f_suspect_handle f);
            ss_suspect_posts := Some (f_suspect_posts f) |},
         NoticeSuccess "✅ Analysis Complete! See results below.").

(** The block under [if 'final_score' in st.session_state]. *)
Definition results_display (st : session_state) : display :=
  match ss_final_score st with
  | None => Hidden
  | Some final_score =>
      match ss_breakdown st, ss_suspect_url st, ss_suspect_handle st,
            ss_suspect_posts st with
      | Some breakdown, Some suspect_url, Some suspect_handle,
        Some suspect_posts =>
          let confidence_score :=
            match get breakdown "Confidence Score (%)" with
            | Some v => fmt float_str (Some v)
            | None => "N/A"
            end in
          let '(suggestion_text, suggestion_style, risk_label) :=
            get_action_suggestion final_score in
          let display_breakdown :=
            [ ("Identity Risk Points (Max 45)",
               CellValue (get breakdown "Identity Risk Points (Max 45)"));
              ("Handle Similarity Score (%)",
               CellText
                 (fmt float_str (get breakdown "Handle Similarity Score (%)")
                  ++ "%"));
              ("Keyword Scan Points (Max 25)",
               CellValue (get breakdown "Keyword Scan Points (Max 25)"));
              ("*Urgency Tone Points (NEW)*",
               CellValue (get breakdown "Urgency Tone Points (Max 15)"));
              ("Behavioral Risk Points (Total)",
               CellValue (get breakdown "Behavioral Risk Points (Max 40)"));
              ("Account Age (Days)",
               CellValue (get breakdown "Account Age (Days)"));
              ("Domain Age Risk Points",
               CellValue (get breakdown "Domain Age Risk Points"));
              ("*Phishing Link Points (NEW)*",
               CellValue (get breakdown "Phishing Link Points"));
              ("Stolen Picture Risk Points",
               CellValue (get breakdown "Stolen Picture Risk Points"));
              ("Network/Metadata Risk Points (Total)",
               CellValue
                 (get breakdown "Network/Metadata Risk Points (Max 15)")) ] in
          let html_content :=
            create_html_report float_str timestamp final_score breakdown
              suspect_url suspect_handle suspect_posts suggestion_text
              risk_label in
          Shown {| v_score_metric := Py.str_of_int final_score ++ "%";
                   v_confidence_metric := confidence_score ++ "%";
                   v_banner := risk_banner risk_label;
                   v_advice_style :=
                     if (suggestion_style =? "error")%string then "error"
                     else if (suggestion_style =? "warning")%string
                     then "warning"
                     else "info";
                   v_advice_text := suggestion_text;
                   v_table := display_breakdown;
                   v_download := html_content |}
      | _, _, _, _ => Failure
      end
  end.

(** The presses of the button, one form after the other. *)
Fixpoint run_clicks (clicks : list form) (st : session_state)
  : Rand rng session_state :=
  match clicks with
  | [] => ret st
  | f :: rest =>
      r <- on_run_click f st ;;
      run_clicks rest (fst r)
  end.

End Shell.

(** ** Vocabulary of the properties *)

(** [sub] occurs in [s] as a contiguous run of characters. *)
Definition occurs_in (sub s : string) : Prop :=
  exists pre post, s = pre ++ sub ++ post.

(** The character [c] is one of the characters of [s]. *)
Fixpoint mem (c : ascii) (s : string) : bool :=
  match s with
  | EmptyString => false
  | String d s' => Ascii.eqb d c || mem c s'
  end.

(** The selections of an AnalysisInput, and the option text each one reaches
    the aggregator as (the options of the form's select boxes). *)
Inductive urgency_tone : Type := LowUrgency | MediumUrgency | HighUrgency.

Definition urgency_option (u : urgency_tone) : string :=
  match u with
  | LowUrgency => "Low Urgency (Normal Inquiry)"
  | MediumUrgency => "Medium Urgency (Time Pressure)"
  | HighUrgency => "High Urgency (Threat/Panic)"
  end.

Inductive domain_age : Type := LowDomainRisk | MediumDomainRisk | HighDomainRisk.

Definition domain_option (d : domain_age) : string :=
  match d with
  | LowDomainRisk => "Low Risk (Established Domain)"
  | MediumDomainRisk => "Medium Risk (Recently Updated Domain)"
  | HighDomainRisk => "High Risk (New/Suspicious Domain)"
  end.

Inductive phishing_link : Type := NoSuspicion | MaliciousStructure | Homoglyph.

Definition phishing_option (p : phishing_link) : string :=
  match p with
  | NoSuspicion => "No Suspicion Detected"
  | MaliciousStructure => "Malicious Domain Structure Detected"
  | Homoglyph => "Homoglyph/Typosquatting Detected"
  end.

Definition picture_option (stolen : bool) : string :=
  if stolen then "Yes (Stolen/Official Image Match)"
  else "No (Unique/No Match)".

(** The points the claims attach to each selection. *)
Definition urgency_bonus (u : urgency_tone) : Z :=
  match u with HighUrgency => 15 | MediumUrgency => 7 | LowUrgency => 0 end.

Definition domain_points (d : domain_age) : Z :=
  match d with HighDomainRisk => 3 | MediumDomainRisk => 1 | LowDomainRisk => 0 end.

Definition phishing_points (p : phishing_link) : Z :=
  match p with Homoglyph => 3 | MaliciousStructure => 1 | NoSuspicion => 0 end.

Definition picture_points (stolen : bool) : Z := if stolen then 4 else 0.

(** The tiers of the advisor, with the label and the display marker of each. *)
Inductive tier : Type := HIGH | MEDIUM | LOW.

Definition tier_label (t : tier) : string :=
  match t with
  | HIGH => "HIGH RISK: IMMEDIATE TAKEDOWN REQUIRED"
  | MEDIUM => "MEDIUM RISK: INVESTIGATE URGENTLY"
  | LOW => "LOW RISK: MONITOR"
  end.

Definition tier_marker (t : tier) : string :=
  match t with
  | HIGH => "error"
  | MEDIUM => "warning"
  | LOW => "info"
  end.

(** The tier a label stands for, and the order of the tiers. *)
Definition tier_of_label (label : string) : option tier :=
  if (label =? tier_label HIGH)%string then Some HIGH
  else if (label =? tier_label MEDIUM)%string then Some MEDIUM
  else if (label =? tier_label LOW)%string then Some LOW
  else None.

Definition tier_rank (t : tier) : Z :=
  match t with LOW => 0 | MEDIUM => 1 | HIGH => 2 end.

(** The closed float interval [[lo, hi]], with the comparison of the
    interpreter. *)
Definition float_between (lo hi x : float) : Prop :=
  (lo <=? x)%float = true /\ (x <=? hi)%float = true.

(** A seeded generator for running the aggregator: a linear congruential
    state; [randint] reduces the state into the range, [uniform] returns one
    end of the interval. *)
Definition lcg_next (g : Z) : Z := (g * 1103515245 + 12345) mod 2147483648.

Definition seeded_randint (a b g : Z) : Z * Z :=
  (a + g mod (b - a + 1), lcg_next g).

Definition seeded_uniform (a b : float) (g : Z) : float * Z :=
  (if Z.even g then a else b, lcg_next g).

(** A form with every field filled, and the same form without a handle. *)
Definition sample_form : form :=
  {| f_suspect_url := "https://twitter.com/0disha_Police";
     f_suspect_handle := "0disha_Police";
     f_suspect_posts :=
       "URGENT! Send money now to this wallet address or you will be fined.";
     f_urgency_tone_risk := "High Urgency (Threat/Panic)";
     f_phishing_link_risk := "Homoglyph/Typosquatting Detected";
     f_risk_profile_selection :=
       "High Risk Profile (New/Unestablished Account)";
     f_profile_pic_stolen := "Yes (Stolen/Official Image Match)";
     f_domain_age_risk := "High Risk (New/Suspicious Domain)" |}.


(** ** Facts on the built-ins *)

(** Two float constants are told apart by their IEEE decomposition. *)
Ltac float_neq :=
  let E := fresh "E" in
  intro E; apply (f_equal Prim2SF) in E; vm_compute in E; discriminate E.

Ltac float_contra H :=
  exfalso; apply (f_equal Prim2SF) in H; vm_compute in H; discriminate H.

Lemma prefix_app (p s : string) :
  prefix p s = true <-> exists post, s = p ++ post.
Proof.
  revert s; induction p as [|a p IH]; intros [|b s]; simpl.
  - split; eauto.
  - split; eauto.
  - split; [discriminate | intros [post E]; discriminate E].
  - destruct (ascii_dec a b) as [->|N].
    + rewrite IH. split; intros [post E]; exists post.
      * now rewrite E.
      * now inversion E.
    + split; [discriminate | intros [post E]; congruence].
Qed.

Lemma contains_nil (sub : string) : Py.contains sub "" = prefix sub "".
Proof. apply orb_false_r. Qed.

Lemma contains_cons (sub : string) (c : ascii) (s : string) :
  Py.contains sub (String c s)
  = prefix sub (String c s) || Py.contains sub s.
Proof. reflexivity. Qed.

Lemma contains_occurs (sub s : string) :
  Py.contains sub s = true <-> occurs_in sub s.
Proof.
  induction s as [|c s IH].
  - rewrite contains_nil, prefix_app. split.
    + intros [post E]. exists "", post. exact E.
    + intros [pre [post E]]. destruct pre; simpl in E.
      * now exists post.
      * discriminate E.
  - rewrite contains_cons, orb_true_iff, prefix_app, IH. split.
    + intros [[post E] | [pre [post E]]].
      * exists "", post. exact E.
      * exists (String c pre), post. simpl. now rewrite E.
    + intros [pre [post E]]. destruct pre as [|d pre]; simpl in E.
      * left. now exists post.
      * right. inversion E. now exists pre, post.
Qed.

Lemma contains_char (c : ascii) (s : string) :
  Py.contains (String c "") s = mem c s.
Proof.
  induction s as [|d s IH]; simpl; [reflexivity|].
  rewrite IH. destruct (ascii_dec c d) as [->|N].
  - rewrite Ascii.eqb_refl. now destruct s.
  - assert (Ascii.eqb d c = false) as ->
      by (apply Ascii.eqb_neq; congruence).
    reflexivity.
Qed.

Lemma mem_occurs (c : ascii) (s : string) :
  mem c s = true <-> occurs_in (String c "") s.
Proof. now rewrite <- contains_char, contains_occurs. Qed.

Lemma lower_char_zero (d : ascii) :
  Ascii.eqb (Py.lower_char d) "0" = Ascii.eqb d "0".
Proof. destruct d as [[] [] [] [] [] [] [] []]; reflexivity. Qed.

Lemma isspace_lower_char (d : ascii) :
  Py.isspace (Py.lower_char d) = Py.isspace d.
Proof. destruct d as [[] [] [] [] [] [] [] []]; reflexivity. Qed.

Lemma mem_zero_lower (s : string) : mem "0" (Py.lower s) = mem "0" s.
Proof.
  induction s as [|d s IH]; simpl; [reflexivity|].
  now rewrite lower_char_zero, IH.
Qed.

Lemma mem_lstrip (c : ascii) (s : string) :
  Py.isspace c = false -> mem c (Py.lstrip s) = mem c s.
Proof.
  intros Hc. induction s as [|d s IH]; simpl; [reflexivity|].
  destruct (Py.isspace d) eqn:Hd; [|reflexivity].
  rewrite IH. destruct (Ascii.eqb_spec d c) as [->|N]; [congruence|reflexivity].
Qed.

Lemma rstrip_empty_mem (c : ascii) (s : string) :
  Py.isspace c = false -> Py.rstrip s = "" -> mem c s = false.
Proof.
  intros Hc. induction s as [|d s IH]; simpl; [reflexivity|].
  destruct (Py.rstrip s) eqn:R; [|discriminate].
  destruct (Py.isspace d) eqn:Hd; [|discriminate].
  intros _. rewrite IH by reflexivity.
  destruct (Ascii.eqb_spec d c) as [->|N]; [congruence|reflexivity].
Qed.

Lemma mem_rstrip (c : ascii) (s : string) :
  Py.isspace c = false -> mem c (Py.rstrip s) = mem c s.
Proof.
  intros Hc. induction s as [|d s IH]; simpl; [reflexivity|].
  destruct (Py.rstrip s) as [|e r] eqn:R.
  - rewrite (rstrip_empty_mem c s Hc R), orb_false_r.
    destruct (Py.isspace d) eqn:Hd; simpl.
    + destruct (Ascii.eqb_spec d c) as [->|N]; [congruence|reflexivity].
    + now rewrite orb_false_r.
  - change (mem c (String d (String e r))) with (Ascii.eqb d c || mem c (String e r)).
    now rewrite IH.
Qed.

Lemma mem_zero_normalised (s : string) :
  mem "0" (Py.strip (Py.lower s)) = mem "0" s.
Proof.
  unfold Py.strip.
  now rewrite mem_rstrip, mem_lstrip, mem_zero_lower.
Qed.

Lemma lower_lstrip (s : string) :
  Py.lstrip (Py.lower s) = Py.lower (Py.lstrip s).
Proof.
  induction s as [|d s IH]; simpl; [reflexivity|].
  rewrite isspace_lower_char. now destruct (Py.isspace d).
Qed.

Lemma lower_rstrip (s : string) :
  Py.rstrip (Py.lower s) = Py.lower (Py.rstrip s).
Proof.
  induction s as [|d s IH]; simpl; [reflexivity|].
  rewrite IH, isspace_lower_char.
  destruct (Py.rstrip s); simpl; [|reflexivity].
  now destruct (Py.isspace d).
Qed.

Lemma lower_strip (s : string) :
  Py.strip (Py.lower s) = Py.lower (Py.strip s).
Proof. unfold Py.strip. now rewrite lower_lstrip, lower_rstrip. Qed.

Lemma mismatches_refl (s : string) : Py.mismatches s s = 0.
Proof.
  induction s as [|c s IH]; simpl; [reflexivity|].
  now rewrite Ascii.eqb_refl, IH.
Qed.

Lemma mismatches_nonneg (s t : string) : 0 <= Py.mismatches s t.
Proof.
  revert t; induction s as [|a s IH]; intros [|b t]; simpl; try lia.
  specialize (IH t). destruct (Ascii.eqb a b); lia.
Qed.

(** ** Similarity Evaluator: properties *)

(** The four levels are the only results. *)
Lemma get_similarity_score_levels (s o : string) :
  get_similarity_score s o = 1.0%float
  \/ get_similarity_score s o = 0.99%float
  \/ get_similarity_score s o = 0.90%float
  \/ get_similarity_score s o = 0.20%float.
Proof.
  unfold get_similarity_score.
  repeat match goal with |- context [if ?b then _ else _] => destruct b end;
    auto.
Qed.

(** C2, as the claim states it, fails: the zero-for-O rule is tried before the
    single-character rule, so a pair of equal length whose only difference,
    case apart, is a [0] against an [O] is rated 0.99 and not 0.90. *)
Lemma single_char_diff_claim_fails :
  String.length "0disha_Police" = String.length "Odisha_Police"
  /\ Py.mismatches (Py.lower "0disha_Police") (Py.lower "Odisha_Police") = 1
  /\ get_similarity_score "0disha_Police" "Odisha_Police" = 0.99%float
  /\ get_similarity_score "0disha_Police" "Odisha_Police" <> 0.90%float.
Proof.
  repeat split. vm_compute. float_neq.
Qed.

(** Surrounding whitespace is a second way out of the single-character
    level: the lengths compared are those of the raw strings, the characters
    compared those of the trimmed ones. *)
Example single_char_diff_whitespace :
  String.length " ab" = String.length "xab"
  /\ Py.mismatches (Py.lower " ab") (Py.lower "xab") = 1
  /\ get_similarity_score " ab" "xab" = 0.20%float.
Proof. repeat split. Qed.

(** C2, amended: two strings of equal length, neither with leading or
    trailing whitespace, that differ in exactly one position once lower-cased,
    and that the zero-for-O rule does not relate, are rated 0.90. *)
Theorem single_char_diff_level (s o : string) :
  String.length s = String.length o ->
  Py.strip s = s ->
  Py.strip o = o ->
  Py.mismatches (Py.lower s) (Py.lower o) = 1 ->
  Py.replace "0" "o" 1 (Py.lower s) <> Py.lower o ->
  get_similarity_score s o = 0.90%float.
Proof.
  intros Hlen Hs Ho Hdiff Hzero.
  unfold get_similarity_score.
  rewrite !lower_strip, Hs, Ho.
  destruct (String.eqb_spec (Py.lower s) (Py.lower o)) as [E|_].
  - rewrite E, mismatches_refl in Hdiff. discriminate Hdiff.
  - destruct (String.eqb_spec (Py.replace "0" "o" 1 (Py.lower s)) (Py.lower o))
      as [E|_]; [contradiction|].
    simpl. unfold Py.len. rewrite Hlen, Z.eqb_refl, Hdiff. reflexivity.
Qed.

(** The amended C2 at ["Odisha_Polica"] against the official handle. *)
Lemma single_char_diff_level_witness :
  get_similarity_score "Odisha_Polica" "Odisha_Police" = 0.90%float.
Proof.
  apply single_char_diff_level.
  - reflexivity.
  - reflexivity.
  - reflexivity.
  - reflexivity.
  - vm_compute. discriminate.
Defined.

(** C3: the level is 0.99 exactly when the candidate is not an exact match
    (case and surrounding whitespace apart), holds a digit [0], and turning the
    first [0] of the lower-cased, trimmed candidate into [o] gives the
    lower-cased, trimmed reference; ["0disha_Police"] against the official
    handle is such a candidate. *)
Theorem near_exact_level :
  (forall s o : string,
      get_similarity_score s o = 0.99%float
      <-> Py.strip (Py.lower s) <> Py.strip (Py.lower o)
          /\ occurs_in "0" s
          /\ Py.replace "0" "o" 1 (Py.strip (Py.lower s))
             = Py.strip (Py.lower o))
  /\ get_similarity_score "0disha_Police" OFFICIAL_HANDLE = 0.99%float.
Proof.
  split; [|reflexivity].
  intros s o. unfold get_similarity_score.
  rewrite <- mem_occurs, contains_char, mem_zero_normalised.
  destruct (String.eqb_spec (Py.strip (Py.lower s)) (Py.strip (Py.lower o)))
    as [E|N].
  - split; [intros F; float_contra F | intros [C _]; contradiction].
  - destruct (String.eqb_spec
                (Py.replace "0" "o" 1 (Py.strip (Py.lower s)))
                (Py.strip (Py.lower o))) as [R|R]; simpl.
    + destruct (mem "0" s).
      * split; auto.
      * split; [|intros (_ & F & _); discriminate F].
        destruct (_ && _); intros F; float_contra F.
    + split; [|intros (_ & _ & F); contradiction].
      destruct (_ && _); intros F; float_contra F.
Qed.

(** ** Keyword Scanner: properties *)

Lemma fold_keywords (p : string -> bool) (l : list string) (r0 : Z) :
  fold_left (fun risk keyword => if p keyword then risk + 15 else risk) l r0
  = r0 + 15 * Z.of_nat (List.length (filter p l)).
Proof.
  revert r0; induction l as [|k l IH]; intros r0; cbn [fold_left filter].
  - cbn. lia.
  - rewrite IH. destruct (p k); cbn [List.length]; lia.
Qed.

Lemma keyword_scan_score_range (post_content : string) :
  0 <= keyword_scan_score post_content <= 60.
Proof.
  unfold keyword_scan_score, keyword_scan_risk.
  rewrite fold_keywords.
  destruct (_ && _); lia.
Qed.

(** C4: the scanner works on the lower-cased text; it counts 25 when the text
    holds "urgent" and also "money" or "fund", 15 for each of the 12 phrases
    that occurs in it, and returns the sum capped at 60.  On the sample post
    the sum is 70 and the score 60. *)
Theorem keyword_scan_score_spec :
  (forall post_content : string,
      let text := Py.lower post_content in
      keyword_scan_score post_content
      = Z.min
          ((if Py.contains "urgent" text
               && (Py.contains "money" text || Py.contains "fund" text)
            then 25 else 0)
           + 15 * Z.of_nat
                    (List.length
                       (filter (fun phrase => Py.contains phrase text)
                               fraud_keywords)))
          60)
  /\ List.length fraud_keywords = 12%nat
  /\ keyword_scan_risk
       "URGENT! Send money now to this wallet address or you will be fined."
     = 70
  /\ keyword_scan_score
       "URGENT! Send money now to this wallet address or you will be fined."
     = 60.
Proof.
  repeat split.
  intros post_content text. unfold keyword_scan_score, keyword_scan_risk.
  fold text. rewrite fold_keywords. now destruct (_ && _).
Qed.

(** ** Facts on floats *)

(** A check that holds on every integer of a range holds on each of them. *)
Lemma Z_range_check (P : Z -> bool) (lo : Z) (n : nat) :
  forallb P (map (fun k => lo + Z.of_nat k) (seq 0 n)) = true ->
  forall z, lo <= z < lo + Z.of_nat n -> P z = true.
Proof.
  intros Hall z Hz. rewrite forallb_forall in Hall. apply Hall.
  apply in_map_iff. exists (Z.to_nat (z - lo)). split; [lia|].
  apply in_seq. lia.
Qed.

Lemma keyword_points_floor (raw : Z) :
  0 <= raw <= 60 ->
  PyFloat.to_int (PyFloat.of_int raw * (25 / 60))%float = raw * 25 / 60.
Proof.
  intros Hraw. apply Z.eqb_eq.
  apply (Z_range_check
           (fun r => PyFloat.to_int (PyFloat.of_int r * (25 / 60))%float
                     =? r * 25 / 60) 0 61); [|lia].
  vm_compute. reflexivity.
Qed.


(** The operand of [int(...)] in the aggregator is never an infinity or a
    NaN. *)
Lemma keyword_points_operand_finite (raw : Z) :
  0 <= raw <= 60 ->
  PrimFloat.is_finite (PyFloat.of_int raw * (25 / 60))%float = true.
Proof.
  intros Hraw.
  apply (Z_range_check
           (fun r => PrimFloat.is_finite (PyFloat.of_int r * (25 / 60))%float)
           0 61); [|lia].
  vm_compute. reflexivity.
Qed.

(** Comparison of floats of one binade. *)
Lemma leb_same_binade (a b x : float) (ma mb : positive) (e : Z) :
  Prim2SF a = S754_finite false ma e ->
  Prim2SF b = S754_finite false mb e ->
  (a <=? x)%float = true -> (x <=? b)%float = true ->
  exists m, Prim2SF x = S754_finite false m e /\ Z.pos ma <= Z.pos m <= Z.pos mb.
Proof.
  intros Ha Hb. rewrite !leb_spec, Ha, Hb. unfold SFleb, SFcompare.
  destruct (Prim2SF x) as [s|s| |s m e']; cbn; try discriminate.
  - destruct s; discriminate.
  - destruct s; [discriminate|].
    change (PosDef.Pos.compare_cont Eq ma m) with (Pos.compare ma m).
    change (PosDef.Pos.compare_cont Eq m mb) with (Pos.compare m mb).
    destruct (Z.compare_spec e e') as [<-|L|L].
    + rewrite Z.compare_refl.
      destruct (Pos.compare_spec ma m); try discriminate;
        destruct (Pos.compare_spec m mb); try discriminate;
        intros _ _; exists m; split; try reflexivity; lia.
    + intros _. destruct (Z.compare_spec e' e); try discriminate; lia.
    + discriminate.
Qed.

Lemma leb_of_mantissa (a x : float) (ma m : positive) (e : Z) :
  Prim2SF a = S754_finite false ma e ->
  Prim2SF x = S754_finite false m e ->
  Z.pos ma <= Z.pos m -> (a <=? x)%float = true.
Proof.
  intros Ha Hx L. rewrite leb_spec, Ha, Hx. unfold SFleb, SFcompare.
  cbn. rewrite Z.compare_refl.
  change (PosDef.Pos.compare_cont Eq ma m) with (Pos.compare ma m).
  destruct (Pos.compare_spec ma m); try reflexivity; lia.
Qed.

Lemma float_between_widen (lo lo' hi hi' x : float) (mlo mlo' mhi mhi' : positive) (e : Z) :
  Prim2SF lo = S754_finite false mlo e ->
  Prim2SF lo' = S754_finite false mlo' e ->
  Prim2SF hi = S754_finite false mhi e ->
  Prim2SF hi' = S754_finite false mhi' e ->
  Z.pos mlo' <= Z.pos mlo -> Z.pos mhi <= Z.pos mhi' ->
  float_between lo hi x -> float_between lo' hi' x.
Proof.
  intros Hlo Hlo' Hhi Hhi' L1 L2 [B1 B2].
  destruct (leb_same_binade lo hi x mlo mhi e Hlo Hhi B1 B2) as (m & Hx & Hm).
  split.
  - apply (leb_of_mantissa lo' x mlo' m e Hlo' Hx). lia.
  - apply (leb_of_mantissa x hi' m mhi' e Hx Hhi'). lia.
Qed.

Lemma round_half_even_bounds (p q : Z) :
  0 < q -> p / q <= PyFloat.round_half_even p q <= p / q + 1.
Proof.
  intros Hq. unfold PyFloat.round_half_even.
  destruct (2 * (p mod q) <? q); [lia|].
  destruct (q <? 2 * (p mod q)); [lia|].
  destruct (Z.even (p / q)); lia.
Qed.

Lemma two_decimal_floats_in_range (n : Z) :
  7000 <= n <= 9990 ->
  float_between 70.0 99.9 (PyFloat.of_int n / 100)%float.
Proof.
  intros Hn.
  assert (((70.0 <=? PyFloat.of_int n / 100)
           && (PyFloat.of_int n / 100 <=? 99.9))%float = true) as C.
  { apply (Z_range_check
             (fun k => ((70.0 <=? PyFloat.of_int k / 100)
                        && (PyFloat.of_int k / 100 <=? 99.9))%float)
             7000 2991); [|lia].
    vm_compute. reflexivity. }
  apply andb_true_iff in C. exact C.
Qed.

Lemma round2_range (x : float) :
  float_between 70.0 99.9 x -> float_between 70.0 99.9 (PyFloat.round2 x).
Proof.
  intros [B1 B2].
  destruct (leb_same_binade 70.0 99.9 x 4925812092436480 7029837543348634
              (-46) eq_refl eq_refl B1 B2)
    as (m & Hx & Hm).
  unfold PyFloat.round2. rewrite Hx.
  change (-6 <=? -46) with false. cbv iota.
  apply two_decimal_floats_in_range.
  clear B1 B2 Hx.
  change (2 ^ (- (-46))) with 70368744177664.
  assert (492581209243648000 <= Z.pos m * 100 <= 702983754334863400)
    as Hp by lia.
  clear Hm. generalize dependent (Z.pos m * 100). intros p Hp.
  unfold PyFloat.round_half_even.
  pose proof (Z.div_mod p 70368744177664 ltac:(lia)) as D.
  pose proof (Z.mod_pos_bound p 70368744177664 ltac:(lia)) as M.
  generalize dependent (p / 70368744177664). intros d.
  generalize dependent (p mod 70368744177664). intros r D M.
  destruct (Z.ltb_spec (2 * r) 70368744177664); [lia|].
  destruct (Z.ltb_spec 70368744177664 (2 * r)); [lia|].
  destruct (Z.even d); lia.
Qed.


Lemma high_confidence_band (x : float) :
  float_between 90.0 99.9 x -> float_between 70.0 99.9 x.
Proof.
  apply (float_between_widen 90.0 70.0 99.9 99.9 x
           6333186975989760 4925812092436480
           7029837543348634 7029837543348634 (-46));
    try reflexivity; lia.
Qed.

Lemma low_confidence_band (x : float) :
  float_between 70.0 89.9 x -> float_between 70.0 99.9 x.
Proof.
  apply (float_between_widen 70.0 70.0 89.9 99.9 x
           4925812092436480 4925812092436480
           6326150101571994 7029837543348634 (-46));
    try reflexivity; lia.
Qed.

(** ** Risk Aggregator: properties *)

Section AggregatorFacts.

Context {rng : Type} `{Random rng}.

(** Evaluate the comparisons between float constants. *)
Ltac float_tests :=
  repeat match goal with
    | |- context [PrimFloat.eqb ?a ?b] =>
        let v := eval vm_compute in (PrimFloat.eqb a b) in
        change (PrimFloat.eqb a b) with v
    | |- context [PrimFloat.leb ?a ?b] =>
        let v := eval vm_compute in (PrimFloat.leb a b) in
        change (PrimFloat.leb a b) with v
    end;
  cbn [orb andb negb]; cbv beta iota.

(** Name the outcome of the next draw and keep its range. *)
Ltac draw :=
  match goal with
  | |- context [randint ?a ?b ?g] =>
      let r := fresh "r" in
      let g' := fresh "g" in
      let Hr := fresh "Hr" in
      let E := fresh "E" in
      pose proof (randint_range a b g ltac:(lia)) as Hr;
      destruct (randint a b g) as [r g'] eqn:E; cbn [fst snd] in Hr |- *
  | |- context [uniform ?a ?b ?g] =>
      let c := fresh "c" in
      let g' := fresh "g" in
      let Hc := fresh "Hc" in
      let E := fresh "E" in
      pose proof (uniform_range a b g eq_refl) as Hc;
      destruct (uniform a b g) as [c g'] eqn:E; cbn [fst snd] in Hc |- *
  end.

(** Run the aggregator symbolically, level by level. *)
Ltac run handle est :=
  unfold calculate_risk_score, bind, ret;
  destruct (get_similarity_score_levels handle OFFICIAL_HANDLE)
    as [E|[E|[E|E]]]; rewrite E; float_tests;
  destruct est; cbn [negb]; cbv beta iota;
  repeat (draw; cbv beta iota).

(** C1: whatever the inputs and the outcomes of the draws, the final score is
    an integer between 0 and 100. *)
Theorem final_score_range
    (handle recent_posts : string) (is_established_account : bool)
    (domain_age_risk profile_pic_stolen urgency_tone_risk
       phishing_link_risk : string) (g : rng) :
  0 <= fst (fst (calculate_risk_score handle recent_posts
                   is_established_account domain_age_risk profile_pic_stolen
                   urgency_tone_risk phishing_link_risk g)) <= 100.
Proof.
  run handle is_established_account; lia.
Qed.

(** C5: the identity points follow the similarity level: 0 for an exact match,
    43 plus the outcome of [randint(0, 2)] for a near-exact one, 25 plus the
    outcome of [randint(0, 5)] for a single-character difference, 5 plus the
    outcome of [randint(0, 5)] otherwise; they never exceed 45.  The draw is
    the first one of the run, on the generator as the call finds it. *)
Theorem identity_contribution
    (handle recent_posts : string) (is_established_account : bool)
    (domain_age_risk profile_pic_stolen urgency_tone_risk
       phishing_link_risk : string) (g : rng) :
  let level := get_similarity_score handle OFFICIAL_HANDLE in
  let bd := snd (fst (calculate_risk_score handle recent_posts
                        is_established_account domain_age_risk
                        profile_pic_stolen urgency_tone_risk
                        phishing_link_risk g)) in
  let r2 := fst (randint 0 2 g) in
  let r5 := fst (randint 0 5 g) in
  exists p,
    get bd "Identity Risk Points (Max 45)" = Some (VInt p)
    /\ (level = 1.0 \/ level = 0.99 \/ level = 0.90 \/ level = 0.20)%float
    /\ (level = 1.0%float -> p = 0)
    /\ (level = 0.99%float -> p = 43 + r2)
    /\ (level = 0.90%float -> p = 25 + r5)
    /\ (level = 0.20%float -> p = 5 + r5)
    /\ 0 <= r2 <= 2
    /\ 0 <= r5 <= 5
    /\ 0 <= p <= 45.
Proof.
  intros level bd r2 r5. subst level bd r2 r5.
  run handle is_established_account;
    (eexists; split; [reflexivity|]);
    (split; [auto|]);
    repeat split; try lia; intros F; first [float_contra F | lia].
Qed.

(** C6: the behavioural points are the scanner's score, between 0 and 60,
    scaled to [floor(raw * 25 / 60)], plus 15, 7 or 0 for a high, medium or low
    urgency tone, the sum capped at 40. *)
Theorem behavioral_contribution
    (handle recent_posts : string) (is_established_account : bool)
    (domain_age_risk profile_pic_stolen : string) (u : urgency_tone)
    (phishing_link_risk : string) (g : rng) :
  let raw := keyword_scan_score recent_posts in
  let bd := snd (fst (calculate_risk_score handle recent_posts
                        is_established_account domain_age_risk
                        profile_pic_stolen (urgency_option u)
                        phishing_link_risk g)) in
  0 <= raw <= 60
  /\ get bd "Keyword Scan Points (Max 25)" = Some (VInt (raw * 25 / 60))
  /\ get bd "Urgency Tone Points (Max 15)" = Some (VInt (urgency_bonus u))
  /\ get bd "Behavioral Risk Points (Max 40)"
     = Some (VInt (Z.min (raw * 25 / 60 + urgency_bonus u) 40)).
Proof.
  intros raw bd. subst raw bd.
  pose proof (keyword_scan_score_range recent_posts) as R.
  split; [exact R|].
  run handle is_established_account;
    rewrite (keyword_points_floor _ R);
    destruct u; repeat split.
Qed.

(** C7: the network points start at 0, gain 5 plus the outcome of
    [randint(0, 2)] when the account is not established, 3, 1 or 0 for a
    high, medium or low domain-age risk, 3, 1 or 0 for a homoglyph, a
    malicious structure or no suspicion, and 4 for a stolen picture; the sum is
    capped at 15. *)
Theorem network_contribution
    (handle recent_posts : string) (is_established_account : bool)
    (d : domain_age) (stolen : bool) (urgency_tone_risk : string)
    (p : phishing_link) (g : rng) :
  let bd := snd (fst (calculate_risk_score handle recent_posts
                        is_established_account (domain_option d)
                        (picture_option stolen) urgency_tone_risk
                        (phishing_option p) g)) in
  exists account_points,
    get bd "Network/Metadata Risk Points (Max 15)"
    = Some (VInt (Z.min (account_points
                         + (domain_points d + phishing_points p
                            + picture_points stolen)) 15))
    /\ get bd "Domain Age Risk Points" = Some (VInt (domain_points d))
    /\ get bd "Phishing Link Points" = Some (VInt (phishing_points p))
    /\ get bd "Stolen Picture Risk Points" = Some (VInt (picture_points stolen))
    /\ (is_established_account = true -> account_points = 0)
    /\ (is_established_account = false ->
        exists g', account_points = 0 + (5 + fst (randint 0 2 g'))
                   /\ 0 <= fst (randint 0 2 g') <= 2).
Proof.
  intros bd. subst bd.
  run handle is_established_account;
    destruct d, p, stolen;
    (eexists; split; [reflexivity|]);
    repeat split; try discriminate;
    intros _;
    match goal with
    | E1 : randint 0 2 ?g1 = (?r, _), E2 : randint 1 90 _ = _ |- _ =>
        exists g1; rewrite E1; cbn [fst]; split; [reflexivity | lia]
    end.
Qed.

(** C10: the similarity level is one of the four constants, so the guard of
    the first or of the second confidence branch holds and the confidence is
    a draw of [uniform(90.0, 99.9)] or of [uniform(70.0, 89.9)]; the draw and
    the value recorded in the breakdown, its rounding to two decimals, lie in
    [[70.0, 99.9]]. *)
Theorem confidence_range
    (handle recent_posts : string) (is_established_account : bool)
    (domain_age_risk profile_pic_stolen urgency_tone_risk
       phishing_link_risk : string) (g : rng) :
  let level := get_similarity_score handle OFFICIAL_HANDLE in
  let bd := snd (fst (calculate_risk_score handle recent_posts
                        is_established_account domain_age_risk
                        profile_pic_stolen urgency_tone_risk
                        phishing_link_risk g)) in
  (level = 1.0 \/ level = 0.99 \/ level = 0.90 \/ level = 0.20)%float
  /\ (((level =? 1.0) || (level <=? 0.20))%float = true
      \/ (0.90 <=? level)%float = true)
  /\ exists g' x,
       (x = fst (uniform 90.0 99.9 g') \/ x = fst (uniform 70.0 89.9 g'))
       /\ get bd "Confidence Score (%)" = Some (VFloat (PyFloat.round2 x))
       /\ float_between 70.0 99.9 x
       /\ float_between 70.0 99.9 (PyFloat.round2 x).
Proof.
  intros level bd. subst level bd.
  run handle is_established_account;
    (split; [auto|]);
    (split; [first [left; reflexivity | right; reflexivity]|]);
    match goal with
    | E1 : uniform ?a ?b ?g1 = (?c, _), Hc : _ /\ _ |- _ =>
        exists g1, c; rewrite E1; cbn [fst];
        assert (float_between 70.0 99.9 c)
          by first [apply high_confidence_band; exact Hc
                   | apply low_confidence_band; exact Hc];
        split; [auto|]; split; [reflexivity|];
        split; [assumption | apply round2_range; assumption]
    end.
Qed.

End AggregatorFacts.

(** ** Action Advisor: properties *)

(** C8: the advisor is a total function of the score: from 70 on it answers
    as for 70 (HIGH, marker "error"), from 40 to 69 as for 40 (MEDIUM, marker
    "warning"), below 40 as for 39 (LOW, marker "info"); the three labels
    differ, so every score has exactly one tier. *)
Theorem action_tiers :
  (forall score, 70 <= score ->
      get_action_suggestion score = get_action_suggestion 70)
  /\ (forall score, 40 <= score < 70 ->
      get_action_suggestion score = get_action_suggestion 40)
  /\ (forall score, score < 40 ->
      get_action_suggestion score = get_action_suggestion 39)
  /\ (forall score, exists! t : tier,
        snd (get_action_suggestion score) = tier_label t
        /\ snd (fst (get_action_suggestion score)) = tier_marker t)
  /\ (forall score, 0 <= score <= 100 ->
        (snd (get_action_suggestion score) = tier_label HIGH <-> 70 <= score)
        /\ (snd (get_action_suggestion score) = tier_label MEDIUM
            <-> 40 <= score < 70)
        /\ (snd (get_action_suggestion score) = tier_label LOW <-> score < 40))
  /\ snd (get_action_suggestion 70) = tier_label HIGH
  /\ snd (get_action_suggestion 40) = tier_label MEDIUM
  /\ snd (get_action_suggestion 39) = tier_label LOW.
Proof.
  assert (forall score, 70 <= score ->
             get_action_suggestion score = get_action_suggestion 70) as Hh.
  { intros score L. unfold get_action_suggestion, RISK_THRESHOLD_HIGH.
    destruct (Z.leb_spec 70 score); [reflexivity | lia]. }
  assert (forall score, 40 <= score < 70 ->
             get_action_suggestion score = get_action_suggestion 40) as Hm.
  { intros score L.
    unfold get_action_suggestion, RISK_THRESHOLD_HIGH, RISK_THRESHOLD_MEDIUM.
    destruct (Z.leb_spec 70 score); [lia|].
    destruct (Z.leb_spec 40 score); [reflexivity | lia]. }
  assert (forall score, score < 40 ->
             get_action_suggestion score = get_action_suggestion 39) as Hl.
  { intros score L.
    unfold get_action_suggestion, RISK_THRESHOLD_HIGH, RISK_THRESHOLD_MEDIUM.
    destruct (Z.leb_spec 70 score); [lia|].
    destruct (Z.leb_spec 40 score); [lia | reflexivity]. }
  assert (forall score,
             (70 <= score /\ snd (get_action_suggestion score) = tier_label HIGH
              /\ snd (fst (get_action_suggestion score)) = tier_marker HIGH)
             \/ (40 <= score < 70
                 /\ snd (get_action_suggestion score) = tier_label MEDIUM
                 /\ snd (fst (get_action_suggestion score))
                    = tier_marker MEDIUM)
             \/ (score < 40
                 /\ snd (get_action_suggestion score) = tier_label LOW
                 /\ snd (fst (get_action_suggestion score)) = tier_marker LOW))
    as Hcases.
  { intros score.
    destruct (Z.le_gt_cases 70 score) as [L|L].
    - left. rewrite (Hh score L). repeat split. exact L.
    - destruct (Z.le_gt_cases 40 score) as [L'|L'].
      + right; left. rewrite (Hm score (conj L' L)). repeat split; lia.
      + right; right. rewrite (Hl score L'). repeat split. exact L'. }
  repeat match goal with |- _ /\ _ => split end;
    try assumption; try reflexivity.
  - intros score.
    destruct (Hcases score) as [(L & E1 & E2)|[(L & E1 & E2)|(L & E1 & E2)]];
      [exists HIGH | exists MEDIUM | exists LOW];
      (split; [split; assumption|]);
      intros t' [E' _]; rewrite E1 in E'; destruct t'; try reflexivity;
      discriminate E'.
  - intros score _.
    destruct (Hcases score) as [(L & E1 & _)|[(L & E1 & _)|(L & E1 & _)]];
      rewrite E1; repeat split; intros; try lia; try reflexivity;
      try discriminate.
Qed.

(** ** Report Renderer: properties *)

Lemma concat_cons (x : string) (l : list string) :
  String.concat "" (x :: l) = x ++ String.concat "" l.
Proof.
  destruct l as [|y l]; simpl; [|reflexivity].
  induction x as [|c x IH]; simpl; [reflexivity | now rewrite <- IH].
Qed.

Lemma append_assoc (a b c : string) : (a ++ b) ++ c = a ++ b ++ c.
Proof. induction a as [|x a IH]; simpl; [reflexivity | now rewrite IH]. Qed.

(** A piece of a concatenation occurs in it. *)
Lemma concat_piece (l : list string) (k : nat) (x : string) :
  nth_error l k = Some x -> occurs_in x (String.concat "" l).
Proof.
  revert k; induction l as [|y l IH]; intros k E.
  - destruct k; discriminate E.
  - rewrite concat_cons. destruct k as [|k]; simpl in E.
    + injection E as ->. exists "", (String.concat "" l). reflexivity.
    + destruct (IH k E) as (pre & post & P).
      exists (y ++ pre), post. rewrite P. now rewrite append_assoc.
Qed.

(** C9: the report holds, untruncated, the final score, the tier label, the
    candidate handle, the candidate URL and the post text, and the colour of
    the score: red from 70 on, amber from 40 to 69, green below 40. *)
Theorem report_contents
    (float_str : float -> string) (timestamp : string)
    (final_score : Z) (bd : breakdown)
    (suspect_url suspect_handle suspect_posts suggestion_text
       risk_label : string) :
  let doc := create_html_report float_str timestamp final_score bd
               suspect_url suspect_handle suspect_posts suggestion_text
               risk_label in
  occurs_in (Py.str_of_int final_score) doc
  /\ occurs_in risk_label doc
  /\ occurs_in suspect_handle doc
  /\ occurs_in suspect_url doc
  /\ occurs_in suspect_posts doc
  /\ occurs_in (risk_color final_score) doc
  /\ (70 <= final_score -> risk_color final_score = "#CC0000")
  /\ (40 <= final_score < 70 -> risk_color final_score = "#FFCC00")
  /\ (final_score < 40 -> risk_color final_score = "#008000").
Proof.
  intros doc. subst doc. unfold create_html_report.
  repeat match goal with |- _ /\ _ => split end.
  - apply (concat_piece _ 51). reflexivity.
  - apply (concat_piece _ 37). reflexivity.
  - apply (concat_piece _ 81). reflexivity.
  - apply (concat_piece _ 68). reflexivity.
  - apply (concat_piece _ 157). reflexivity.
  - apply (concat_piece _ 9). reflexivity.
  - intros L. unfold risk_color, RISK_THRESHOLD_HIGH.
    destruct (Z.leb_spec 70 final_score); [reflexivity | lia].
  - intros L. unfold risk_color, RISK_THRESHOLD_HIGH, RISK_THRESHOLD_MEDIUM.
    destruct (Z.leb_spec 70 final_score); [lia|].
    destruct (Z.leb_spec 40 final_score); [reflexivity | lia].
  - intros L. unfold risk_color, RISK_THRESHOLD_HIGH, RISK_THRESHOLD_MEDIUM.
    destruct (Z.leb_spec 70 final_score); [lia|].
    destruct (Z.leb_spec 40 final_score); [lia | reflexivity].
Qed.

(** ** A concrete random source *)

Lemma leb_refl_of_leb (a b : float) :
  (a <=? b)%float = true ->
  (a <=? a)%float = true /\ (b <=? b)%float = true.
Proof.
  rewrite !leb_spec. unfold SFleb, SFcompare.
  destruct (Prim2SF a) as [sa|sa| |sa ma ea];
    destruct (Prim2SF b) as [sb|sb| |sb mb eb];
    try discriminate; intros _;
    repeat match goal with
      | s : bool |- _ => destruct s
      end;
    rewrite ?Z.compare_refl;
    repeat match goal with
      | |- context [PosDef.Pos.compare_cont Eq ?m ?m] =>
          change (PosDef.Pos.compare_cont Eq m m) with (Pos.compare m m);
          rewrite (Pos.compare_refl m)
      end;
    split; reflexivity.
Qed.

Lemma seeded_randint_range (a b g : Z) :
  a <= b -> a <= fst (seeded_randint a b g) <= b.
Proof.
  intros L. unfold seeded_randint. cbn [fst].
  pose proof (Z.mod_pos_bound g (b - a + 1) ltac:(lia)). lia.
Qed.

Lemma seeded_uniform_range (a b : float) (g : Z) :
  (a <=? b)%float = true ->
  (a <=? fst (seeded_uniform a b g))%float = true
  /\ (fst (seeded_uniform a b g) <=? b)%float = true.
Proof.
  intros L. destruct (leb_refl_of_leb a b L) as [Ra Rb].
  unfold seeded_uniform. cbn [fst]. destruct (Z.even g); auto.
Qed.

#[export] Instance seeded_random : Random Z := {|
  randint := seeded_randint;
  uniform := seeded_uniform;
  randint_range := seeded_randint_range;
  uniform_range := seeded_uniform_range
|}.

(** Two runs on the seeded source: the zero-for-O handle with the sample
    post and every selection at its highest, and the official handle with a
    harmless post and every selection at its lowest. *)
Example run_impersonator :
  fst (calculate_risk_score "0disha_Police"
         "URGENT! Send money now to this wallet address or you will be fined."
         false "High Risk (New/Suspicious Domain)"
         "Yes (Stolen/Official Image Match)" "High Urgency (Threat/Panic)"
         "Homoglyph/Typosquatting Detected" 2024)
  = (100,
     [ ("Handle Similarity Score (%)", VFloat 99.0);
       ("Identity Risk Points (Max 45)", VInt 45);
       ("Keyword Scan Points (Max 25)", VInt 25);
       ("Urgency Tone Points (Max 15)", VInt 15);
       ("Behavioral Risk Points (Max 40)", VInt 40);
       ("Network/Metadata Risk Points (Max 15)", VInt 15);
       ("Account Age (Days)", VInt 15);
       ("Domain Age Risk Points", VInt 3);
       ("Phishing Link Points", VInt 3);
       ("Stolen Picture Risk Points", VInt 4);
       ("Confidence Score (%)", VFloat 89.9) ]).
Proof. vm_compute. reflexivity. Qed.

Example run_official :
  fst (calculate_risk_score "Odisha_Police"
         "Stay safe during the festival."
         true "Low Risk (Established Domain)"
         "No (Unique/No Match)" "Low Urgency (Normal Inquiry)"
         "No Suspicion Detected" 7)
  = (0,
     [ ("Handle Similarity Score (%)", VFloat 100.0);
       ("Identity Risk Points (Max 45)", VInt 0);
       ("Keyword Scan Points (Max 25)", VInt 0);
       ("Urgency Tone Points (Max 15)", VInt 0);
       ("Behavioral Risk Points (Max 40)", VInt 0);
       ("Network/Metadata Risk Points (Max 15)", VInt 0);
       ("Account Age (Days)", VInt 471);
       ("Domain Age Risk Points", VInt 0);
       ("Phishing Link Points", VInt 0);
       ("Stolen Picture Risk Points", VInt 0);
       ("Confidence Score (%)", VFloat 99.9) ]).
Proof. vm_compute. reflexivity. Qed.

(** ** Further facts on the built-ins *)

Lemma lower_char_idem (c : ascii) :
  Py.lower_char (Py.lower_char c) = Py.lower_char c.
Proof. destruct c as [[] [] [] [] [] [] [] []]; reflexivity. Qed.

Lemma lower_idem (s : string) : Py.lower (Py.lower s) = Py.lower s.
Proof.
  induction s as [|c s IH]; simpl; [reflexivity|].
  now rewrite lower_char_idem, IH.
Qed.


Lemma lower_app (s t : string) :
  Py.lower (s ++ t) = Py.lower s ++ Py.lower t.
Proof. induction s as [|c s IH]; simpl; [reflexivity | now rewrite IH]. Qed.

Lemma occurs_in_lower (sub s : string) :
  occurs_in sub s -> occurs_in (Py.lower sub) (Py.lower s).
Proof.
  intros (pre & post & ->). exists (Py.lower pre), (Py.lower post).
  now rewrite !lower_app.
Qed.

Lemma occurs_in_trans (a b c : string) :
  occurs_in a b -> occurs_in b c -> occurs_in a c.
Proof.
  intros (p1 & q1 & ->) (p2 & q2 & ->).
  exists (p2 ++ p1), (q1 ++ q2).
  now rewrite !append_assoc.
Qed.

Lemma contains_mono (sub s t : string) :
  occurs_in s t -> Py.contains sub s = true -> Py.contains sub t = true.
Proof.
  rewrite !contains_occurs. intros Hst Hs.
  exact (occurs_in_trans _ _ _ Hs Hst).
Qed.

(** Turning the first [0] into [o] keeps the length and changes exactly one
    position. *)
Lemma replace_zero_one_mismatch (s t : string) :
  Py.replace "0" "o" 1 s = t -> mem "0" s = true ->
  String.length s = String.length t /\ Py.mismatches s t = 1.
Proof.
  revert t; induction s as [|c s IH]; intros t E M; [discriminate M|].
  cbn [Py.replace] in E. cbn [mem] in M.
  destruct (Ascii.eqb_spec c "0") as [->|N].
  - subst t. cbn [Py.replace String.length Py.mismatches].
    split; [destruct s; reflexivity|].
    replace (Py.replace "0" "o" 0 s) with s by now destruct s.
    rewrite mismatches_refl. reflexivity.
  - cbn [orb] in M. subst t. cbn [String.length Py.mismatches].
    destruct (IH _ eq_refl M) as [L D].
    rewrite Ascii.eqb_refl, D, L. split; reflexivity.
Qed.

(** ** Similarity Evaluator: further properties *)

Lemma exact_level_iff (s o : string) :
  get_similarity_score s o = 1.0%float
  <-> Py.strip (Py.lower s) = Py.strip (Py.lower o).
Proof.
  unfold get_similarity_score.
  destruct (String.eqb_spec (Py.strip (Py.lower s)) (Py.strip (Py.lower o)))
    as [E|N].
  - split; auto.
  - split; [|contradiction].
    destruct (_ && _); [intros F; float_contra F|].
    destruct (_ && _); intros F; float_contra F.
Qed.

(** X1: the level is 1.0 exactly when candidate and reference are equal once
    lower-cased and trimmed. *)
Theorem exact_match_level (s o : string) :
  get_similarity_score s o = 1.0%float
  <-> Py.strip (Py.lower s) = Py.strip (Py.lower o).
Proof. exact (exact_level_iff s o). Qed.


Lemma near_exact_guard (s o : string) :
  get_similarity_score s o = 0.99%float ->
  Py.replace "0" "o" 1 (Py.strip (Py.lower s)) = Py.strip (Py.lower o)
  /\ Py.contains "0" (Py.strip (Py.lower s)) = true.
Proof.
  unfold get_similarity_score.
  destruct (_ =? _)%string; [intros F; float_contra F|].
  destruct (String.eqb_spec
              (Py.replace "0" "o" 1 (Py.strip (Py.lower s)))
              (Py.strip (Py.lower o))) as [R|R]; cbn [andb].
  - destruct (Py.contains "0" (Py.strip (Py.lower s))); [auto|].
    destruct (_ && _); intros F; float_contra F.
  - destruct (_ && _); intros F; float_contra F.
Qed.

(** X3: a pair rated 0.99 has lower-cased, trimmed forms of equal length
    that differ in exactly one position. *)
Theorem near_exact_is_one_difference (s o : string) :
  get_similarity_score s o = 0.99%float ->
  String.length (Py.strip (Py.lower s)) = String.length (Py.strip (Py.lower o))
  /\ Py.mismatches (Py.strip (Py.lower s)) (Py.strip (Py.lower o)) = 1.
Proof.
  intros E. destruct (near_exact_guard s o E) as [R C].
  apply replace_zero_one_mismatch; [exact R|].
  now rewrite <- contains_char.
Qed.

Lemma near_exact_is_one_difference_witness :
  String.length (Py.strip (Py.lower "0disha_Police"))
  = String.length (Py.strip (Py.lower OFFICIAL_HANDLE))
  /\ Py.mismatches (Py.strip (Py.lower "0disha_Police"))
       (Py.strip (Py.lower OFFICIAL_HANDLE)) = 1.
Proof. apply near_exact_is_one_difference. reflexivity. Defined.

(** X4: the level is 0.90 exactly when the pair is no exact match, is not
    related by the zero-for-O rule, has raw strings of equal length, and has
    lower-cased, trimmed forms that differ in exactly one position of their
    zip. *)
Theorem single_char_level_iff (s o : string) :
  get_similarity_score s o = 0.90%float
  <-> Py.strip (Py.lower s) <> Py.strip (Py.lower o)
      /\ ~ (Py.replace "0" "o" 1 (Py.strip (Py.lower s))
             = Py.strip (Py.lower o)
            /\ occurs_in "0" s)
      /\ String.length s = String.length o
      /\ Py.mismatches (Py.strip (Py.lower s)) (Py.strip (Py.lower o)) = 1.
Proof.
  unfold get_similarity_score, Py.len.
  rewrite <- mem_occurs, <- (mem_zero_normalised s), contains_char.
  destruct (String.eqb_spec (Py.strip (Py.lower s)) (Py.strip (Py.lower o)))
    as [E|N];
    destruct (String.eqb_spec
                (Py.replace "0" "o" 1 (Py.strip (Py.lower s)))
                (Py.strip (Py.lower o))) as [R|R];
    destruct (mem "0" (Py.strip (Py.lower s))) eqn:M;
    destruct (Z.eqb_spec (Z.of_nat (String.length s))
                         (Z.of_nat (String.length o))) as [L|L];
    destruct (Z.eqb_spec (Py.mismatches (Py.strip (Py.lower s))
                                        (Py.strip (Py.lower o))) 1)
      as [D|D];
    cbn [andb];
    (split;
     [ intros F; first [float_contra F | idtac]
     | intros (C1 & C2 & C3 & C4); first [reflexivity | exfalso] ]);
    try contradiction; try lia; try (apply C2; split; auto; fail).
  all: repeat split; auto; try lia; intros [? ?]; congruence.
Qed.

(** ** Keyword Scanner: further properties *)

Lemma filter_length_mono {A : Type} (p q : A -> bool) (l : list A) :
  (forall x, p x = true -> q x = true) ->
  (List.length (filter p l) <= List.length (filter q l))%nat.
Proof.
  intros Hpq. induction l as [|a l IH]; cbn [filter]; [lia|].
  destruct (p a) eqn:Pa.
  - rewrite (Hpq a Pa). cbn [List.length]. lia.
  - destruct (q a); cbn [List.length]; lia.
Qed.

Lemma filter_length_bound {A : Type} (p : A -> bool) (l : list A) :
  (List.length (filter p l) <= List.length l)%nat.
Proof.
  induction l as [|a l IH]; cbn [filter List.length]; [lia|].
  destruct (p a); cbn [List.length]; lia.
Qed.

Lemma filter_length_pos {A : Type} (p : A -> bool) (l : list A) (a : A) :
  In a l -> p a = true -> (1 <= List.length (filter p l))%nat.
Proof.
  intros Hin Pa. assert (In a (filter p l)) as F by (apply filter_In; auto).
  destruct (filter p l); [contradiction | cbn [List.length]; lia].
Qed.

Lemma filter_nil_iff {A : Type} (p : A -> bool) (l : list A) :
  filter p l = [] <-> forall x, In x l -> p x = false.
Proof.
  induction l as [|a l IH]; cbn [filter].
  - split; [intros _ x [] | reflexivity].
  - destruct (p a) eqn:Pa.
    + split; [discriminate|]. intros Hall.
      rewrite (Hall a (or_introl eq_refl)) in Pa. discriminate Pa.
    + rewrite IH. split.
      * intros Hall x [<-|Hx]; auto.
      * intros Hall x Hx. apply Hall. now right.
Qed.

(** The scanner's sum, in closed form. *)
Lemma keyword_scan_risk_closed (post_content : string) :
  keyword_scan_risk post_content
  = (if Py.contains "urgent" (Py.lower post_content)
        && (Py.contains "money" (Py.lower post_content)
            || Py.contains "fund" (Py.lower post_content))
     then 25 else 0)
    + 15 * Z.of_nat (List.length
                       (filter (fun phrase =>
                                  Py.contains phrase (Py.lower post_content))
                               fraud_keywords)).
Proof.
  unfold keyword_scan_risk.
  rewrite fold_keywords. now destruct (_ && _).
Qed.

(** X5: the scanner returns one of 0, 15, 25, 30, 40, 45, 55, 60. *)
Theorem keyword_scan_score_values (post_content : string) :
  In (keyword_scan_score post_content) [0; 15; 25; 30; 40; 45; 55; 60].
Proof.
  unfold keyword_scan_score. rewrite keyword_scan_risk_closed.
  pose proof (filter_length_bound
                (fun phrase => Py.contains phrase (Py.lower post_content))
                fraud_keywords) as B.
  change (List.length fraud_keywords) with 12%nat in B.
  set (k := List.length _) in *. cbn [In].
  destruct (_ && _); lia.
Qed.

(** X6: the scanner returns 0 exactly when no phrase of the list occurs in
    the lower-cased text and the urgent-money pattern is absent. *)
Theorem keyword_scan_score_zero_iff (post_content : string) :
  keyword_scan_score post_content = 0
  <-> (forall phrase, In phrase fraud_keywords ->
         ~ occurs_in phrase (Py.lower post_content))
      /\ ~ (occurs_in "urgent" (Py.lower post_content)
            /\ (occurs_in "money" (Py.lower post_content)
                \/ occurs_in "fund" (Py.lower post_content))).
Proof.
  unfold keyword_scan_score. rewrite keyword_scan_risk_closed.
  set (text := Py.lower post_content).
  set (p := fun phrase => Py.contains phrase text).
  rewrite <- !contains_occurs.
  assert ((forall phrase, In phrase fraud_keywords -> ~ occurs_in phrase text)
          <-> filter p fraud_keywords = []) as ->.
  { rewrite filter_nil_iff. split; intros Hall x Hx.
    - specialize (Hall x Hx). rewrite <- contains_occurs in Hall.
      unfold p. now destruct (Py.contains x text).
    - rewrite <- contains_occurs. specialize (Hall x Hx). unfold p in Hall.
      now rewrite Hall. }
  destruct (filter p fraud_keywords) as [|a l] eqn:F; cbn [List.length].
  - destruct (Py.contains "urgent" text), (Py.contains "money" text),
      (Py.contains "fund" text); cbn [andb orb];
      (split; [intros Z0; try discriminate Z0 | intros [_ C]]);
      try reflexivity;
      try (exfalso; apply C; auto; fail);
      split; try reflexivity; intros [U [M|M]]; discriminate.
  - split; [|intros [C _]; discriminate C].
    rewrite Nat2Z.inj_succ. destruct (_ && _); lia.
Qed.

(** X7: text added before or after a post never lowers its score. *)
Theorem keyword_scan_score_monotone (text text' : string) :
  occurs_in text text' ->
  keyword_scan_score text <= keyword_scan_score text'.
Proof.
  intros O. apply occurs_in_lower in O.
  unfold keyword_scan_score. rewrite !keyword_scan_risk_closed.
  pose proof (filter_length_mono
                (fun phrase => Py.contains phrase (Py.lower text))
                (fun phrase => Py.contains phrase (Py.lower text'))
                fraud_keywords
                (fun x => contains_mono x _ _ O)) as F.
  assert (forall sub, Py.contains sub (Py.lower text) = true ->
                      Py.contains sub (Py.lower text') = true) as M
      by (intros sub; apply contains_mono; exact O).
  set (b := Py.contains "urgent" (Py.lower text)
            && (Py.contains "money" (Py.lower text)
                || Py.contains "fund" (Py.lower text))).
  set (b' := Py.contains "urgent" (Py.lower text')
             && (Py.contains "money" (Py.lower text')
                 || Py.contains "fund" (Py.lower text'))).
  assert (b = true -> b' = true) as B.
  { unfold b, b'. rewrite !andb_true_iff, !orb_true_iff.
    intros [U [Mo|Fu]]; split; auto. }
  destruct b, b'; lia.
Qed.

Lemma keyword_scan_score_monotone_witness :
  keyword_scan_score "Send money"
  <= keyword_scan_score "URGENT! Send money now".
Proof.
  apply keyword_scan_score_monotone.
  exists "URGENT! ", " now". reflexivity.
Defined.

(** X8: the score of a post is that of its lower-cased text. *)
Theorem keyword_scan_score_ignores_case (post_content : string) :
  keyword_scan_score (Py.lower post_content)
  = keyword_scan_score post_content.
Proof.
  unfold keyword_scan_score, keyword_scan_risk. now rewrite lower_idem.
Qed.

(** X9: a post that holds "urgent funds", in any case, scores at least 40:
    the phrase counts once as a keyword and once more through "urgent" and
    "fund". *)
Theorem urgent_funds_floor (post_content : string) :
  occurs_in "urgent funds" (Py.lower post_content) ->
  40 <= keyword_scan_score post_content.
Proof.
  intros O. unfold keyword_scan_score. rewrite keyword_scan_risk_closed.
  assert (Py.contains "urgent" (Py.lower post_content) = true) as ->.
  { apply contains_occurs. apply (occurs_in_trans _ "urgent funds"); [|exact O].
    exists "", " funds". reflexivity. }
  assert (Py.contains "fund" (Py.lower post_content) = true) as ->.
  { apply contains_occurs. apply (occurs_in_trans _ "urgent funds"); [|exact O].
    exists "urgent ", "s". reflexivity. }
  rewrite orb_true_r. cbn [andb].
  pose proof (filter_length_pos
                (fun phrase => Py.contains phrase (Py.lower post_content))
                fraud_keywords "urgent funds") as P.
  assert (In "urgent funds" fraud_keywords) as I by (cbn; auto 6).
  specialize (P I (proj2 (contains_occurs _ _) O)). lia.
Qed.

Lemma urgent_funds_floor_witness :
  40 <= keyword_scan_score "Need URGENT FUNDS today".
Proof.
  apply urgent_funds_floor. exists "need ", " today". reflexivity.
Defined.

(** ** Action Advisor and Report Renderer: further properties *)

Lemma advisor_cases (score : Z) :
  (70 <= score /\ get_action_suggestion score = get_action_suggestion 70)
  \/ (40 <= score < 70
      /\ get_action_suggestion score = get_action_suggestion 40)
  \/ (score < 40 /\ get_action_suggestion score = get_action_suggestion 39).
Proof.
  unfold get_action_suggestion, RISK_THRESHOLD_HIGH, RISK_THRESHOLD_MEDIUM.
  destruct (Z.leb_spec 70 score); [left; split; [lia | reflexivity]|].
  destruct (Z.leb_spec 40 score); [right; left | right; right];
    (split; [lia | reflexivity]).
Qed.

(** X18: a higher score never gets a lower tier. *)
Theorem advisor_monotone (score1 score2 : Z) :
  score1 <= score2 ->
  exists t1 t2,
    tier_of_label (snd (get_action_suggestion score1)) = Some t1
    /\ tier_of_label (snd (get_action_suggestion score2)) = Some t2
    /\ tier_rank t1 <= tier_rank t2.
Proof.
  intros L.
  destruct (advisor_cases score1) as [[L1 E1]|[[L1 E1]|[L1 E1]]];
    destruct (advisor_cases score2) as [[L2 E2]|[[L2 E2]|[L2 E2]]];
    try lia; rewrite E1, E2;
    [ exists HIGH, HIGH | exists MEDIUM, HIGH | exists MEDIUM, MEDIUM
    | exists LOW, HIGH | exists LOW, MEDIUM | exists LOW, LOW ];
    repeat split; cbn; lia.
Qed.

Lemma advisor_monotone_witness :
  exists t1 t2,
    tier_of_label (snd (get_action_suggestion 39)) = Some t1
    /\ tier_of_label (snd (get_action_suggestion 70)) = Some t2
    /\ tier_rank t1 <= tier_rank t2.
Proof. apply advisor_monotone. lia. Defined.

(** X19: for every score the colour of the report is that of the tier the
    advisor gives: red with HIGH, amber with MEDIUM, green with LOW. *)
Theorem colour_agrees_with_tier (score : Z) :
  (snd (get_action_suggestion score) = tier_label HIGH
   /\ risk_color score = "#CC0000")
  \/ (snd (get_action_suggestion score) = tier_label MEDIUM
      /\ risk_color score = "#FFCC00")
  \/ (snd (get_action_suggestion score) = tier_label LOW
      /\ risk_color score = "#008000").
Proof.
  unfold get_action_suggestion, risk_color, RISK_THRESHOLD_HIGH,
    RISK_THRESHOLD_MEDIUM.
  destruct (70 <=? score); [left; split; reflexivity|].
  destruct (40 <=? score); [right; left | right; right]; split; reflexivity.
Qed.

Lemma concat_app (l1 l2 : list string) :
  String.concat "" (l1 ++ l2)
  = String.concat "" l1 ++ String.concat "" l2.
Proof.
  induction l1 as [|x l1 IH]; [reflexivity|].
  change ((x :: l1) ++ l2)%list with (x :: (l1 ++ l2)%list).
  now rewrite !concat_cons, IH, append_assoc.
Qed.

(** A run of consecutive pieces of a concatenation occurs in it. *)
Lemma concat_window (l : list string) (k n : nat) :
  occurs_in (String.concat "" (firstn n (skipn k l))) (String.concat "" l).
Proof.
  exists (String.concat "" (firstn k l)),
    (String.concat "" (skipn n (skipn k l))).
  rewrite <- !concat_app, firstn_skipn, firstn_skipn. reflexivity.
Qed.

Lemma occurs_in_app_prefix (u v w : string) :
  occurs_in (u ++ v) (u ++ v ++ w).
Proof. exists "", w. cbn [append]. now rewrite append_assoc. Qed.

(** Reduce a goal on the whole report to the run of [n] pieces from the
    [k]-th. *)
Ltac window k n :=
  match goal with
  | |- occurs_in _ (String.concat "" ?l) =>
      refine (occurs_in_trans _ _ _ _ (concat_window l k n));
      cbn [skipn firstn String.concat]
  end.

(** Close a goal on a run of pieces whose first piece ends with the literal
    [p] the sought text starts with. *)
Ltac sandwich p :=
  match goal with
  | |- occurs_in _ (?A ++ _) =>
      let n := eval vm_compute in (String.length A - String.length p)%nat in
      let A0 := eval vm_compute in (substring 0 n A) in
      exists A0; eexists; rewrite ?append_assoc; reflexivity
  end.

(** X20: a breakdown without the confidence entry prints "N/A" in the
    confidence cell; a missing similarity or account-age entry prints
    "None". *)
Theorem report_missing_entries
    (float_str : float -> string) (timestamp : string)
    (final_score : Z) (bd : breakdown)
    (suspect_url suspect_handle suspect_posts suggestion_text
       risk_label : string) :
  let doc := create_html_report float_str timestamp final_score bd
               suspect_url suspect_handle suspect_posts suggestion_text
               risk_label in
  (get bd "Confidence Score (%)" = None -> occurs_in ">N/A%</td>" doc)
  /\ (get bd "Handle Similarity Score (%)" = None ->
      occurs_in "Handle Similarity: None%</td>" doc)
  /\ (get bd "Account Age (Days)" = None ->
      occurs_in "Account Age: None days<br>" doc).
Proof.
  intros doc. subst doc. unfold create_html_report.
  repeat match goal with |- _ /\ _ => split end; intros ->; unfold fmt.
  - window 140%nat 3%nat. apply contains_occurs. vm_compute. reflexivity.
  - window 92%nat 3%nat. apply contains_occurs. vm_compute. reflexivity.
  - window 110%nat 3%nat. apply contains_occurs. vm_compute. reflexivity.
Qed.

(** X22: the report also shows the generation time, the advisory text after
    its heading, the candidate URL as target and as text of one link, the
    official handle, and the score with its percent sign and over 100. *)
Theorem report_reference_fields
    (float_str : float -> string) (timestamp : string)
    (final_score : Z) (bd : breakdown)
    (suspect_url suspect_handle suspect_posts suggestion_text
       risk_label : string) :
  let doc := create_html_report float_str timestamp final_score bd
               suspect_url suspect_handle suspect_posts suggestion_text
               risk_label in
  occurs_in ("Generated on: " ++ timestamp ++ "</p>") doc
  /\ occurs_in ("<strong>Action Suggestion:</strong> " ++ suggestion_text) doc
  /\ occurs_in ("<a href=" ++ dq ++ suspect_url ++ dq ++ " target=" ++ dq
                ++ "_blank" ++ dq ++ ">" ++ suspect_url ++ "</a>") doc
  /\ occurs_in (">" ++ OFFICIAL_HANDLE ++ "</td>") doc
  /\ occurs_in (Py.str_of_int final_score ++ "%</div>") doc
  /\ occurs_in (Py.str_of_int final_score ++ " / 100</td>") doc.
Proof.
  intros doc. subst doc. unfold create_html_report.
  repeat match goal with |- _ /\ _ => split end.
  - window 22%nat 3%nat. sandwich "Generated on: ".
  - window 56%nat 3%nat. sandwich "<strong>Action Suggestion:</strong> ".
  - window 66%nat 11%nat. sandwich "<a href=".
  - window 86%nat 3%nat. sandwich ">".
  - window 51%nat 2%nat. exists "". eexists. rewrite ?append_assoc. reflexivity.
  - window 151%nat 2%nat. exists "". eexists. rewrite ?append_assoc. reflexivity.
Qed.

(** ** Risk Aggregator: further properties *)

Section AggregatorMore.

Context {rng : Type} `{Random rng}.

(** Evaluate the comparisons between float constants. *)
Ltac float_tests :=
  repeat match goal with
    | |- context [PrimFloat.eqb ?a ?b] =>
        let v := eval vm_compute in (PrimFloat.eqb a b) in
        change (PrimFloat.eqb a b) with v
    | |- context [PrimFloat.leb ?a ?b] =>
        let v := eval vm_compute in (PrimFloat.leb a b) in
        change (PrimFloat.leb a b) with v
    end;
  cbn [orb andb negb]; cbv beta iota.

(** Name the outcome of the next draw and keep its range. *)
Ltac draw :=
  match goal with
  | |- context [randint ?a ?b ?g] =>
      let r := fresh "r" in
      let g' := fresh "g" in
      let Hr := fresh "Hr" in
      let E := fresh "E" in
      pose proof (randint_range a b g ltac:(lia)) as Hr;
      destruct (randint a b g) as [r g'] eqn:E; cbn [fst snd] in Hr |- *
  | |- context [uniform ?a ?b ?g] =>
      let c := fresh "c" in
      let g' := fresh "g" in
      let Hc := fresh "Hc" in
      let E := fresh "E" in
      pose proof (uniform_range a b g eq_refl) as Hc;
      destruct (uniform a b g) as [c g'] eqn:E; cbn [fst snd] in Hc |- *
  end.

(** Run the aggregator symbolically, level by level. *)
Ltac run handle est :=
  unfold calculate_risk_score, bind, ret;
  destruct (get_similarity_score_levels handle OFFICIAL_HANDLE)
    as [E|[E|[E|E]]]; rewrite E; float_tests;
  destruct est; cbn [negb]; cbv beta iota;
  repeat (draw; cbv beta iota).

(** Replace the points of a selection by a variable within its bounds. *)
Ltac abstract_points v :=
  match goal with
  | |- context [if (?s =? ?a)%string then v else ?r] =>
      let u := fresh "pts" in
      let Hu := fresh "Hpts" in
      set (u := if (s =? a)%string then v else r);
      assert (0 <= u <= v) as Hu
        by (subst u;
            repeat match goal with
              | |- context [if ?c then _ else _] => destruct c
              end; lia);
      clearbody u
  end.

(** Replace the keyword points by their integer value, within [[0, 25]]. *)
Ltac abstract_keyword_points posts :=
  let R := fresh "R" in
  let kp := fresh "kp" in
  let Hkp := fresh "Hkp" in
  pose proof (keyword_scan_score_range posts) as R;
  rewrite (keyword_points_floor _ R);
  pose proof (Z.div_mod (keyword_scan_score posts * 25) 60 ltac:(lia));
  pose proof (Z.mod_pos_bound (keyword_scan_score posts * 25) 60 ltac:(lia));
  assert (0 <= keyword_scan_score posts * 25 / 60 <= 25) as Hkp by lia;
  set (kp := keyword_scan_score posts * 25 / 60) in *;
  clearbody kp.

Ltac run_bounded handle posts est :=
  unfold calculate_risk_score, bind, ret;
  abstract_keyword_points posts;
  abstract_points 15; abstract_points 3; abstract_points 3; abstract_points 4;
  destruct (get_similarity_score_levels handle OFFICIAL_HANDLE)
    as [E|[E|[E|E]]]; rewrite E; float_tests;
  destruct est; cbn [negb]; cbv beta iota;
  repeat (draw; cbv beta iota).

(** X10: every run returns the same eleven keys, in the same order. *)
Theorem breakdown_keys
    (handle recent_posts : string) (is_established_account : bool)
    (domain_age_risk profile_pic_stolen urgency_tone_risk
       phishing_link_risk : string) (g : rng) :
  map fst (snd (fst (calculate_risk_score handle recent_posts
                       is_established_account domain_age_risk
                       profile_pic_stolen urgency_tone_risk
                       phishing_link_risk g)))
  = [ "Handle Similarity Score (%)"; "Identity Risk Points (Max 45)";
      "Keyword Scan Points (Max 25)"; "Urgency Tone Points (Max 15)";
      "Behavioral Risk Points (Max 40)";
      "Network/Metadata Risk Points (Max 15)"; "Account Age (Days)";
      "Domain Age Risk Points"; "Phishing Link Points";
      "Stolen Picture Risk Points"; "Confidence Score (%)" ].
Proof.
  run handle is_established_account; reflexivity.
Qed.

(** X11: the similarity percentage of the breakdown is 100.0, 99.0, 90.0 or
    20.0, by level: the product with 100 and the rounding leave no float
    residue. *)
Theorem similarity_percentage
    (handle recent_posts : string) (is_established_account : bool)
    (domain_age_risk profile_pic_stolen urgency_tone_risk
       phishing_link_risk : string) (g : rng) :
  let level := get_similarity_score handle OFFICIAL_HANDLE in
  let bd := snd (fst (calculate_risk_score handle recent_posts
                        is_established_account domain_age_risk
                        profile_pic_stolen urgency_tone_risk
                        phishing_link_risk g)) in
  exists pct,
    get bd "Handle Similarity Score (%)" = Some (VFloat pct)
    /\ (level = 1.0%float -> pct = 100.0%float)
    /\ (level = 0.99%float -> pct = 99.0%float)
    /\ (level = 0.90%float -> pct = 90.0%float)
    /\ (level = 0.20%float -> pct = 20.0%float).
Proof.
  intros level bd. subst level bd.
  run handle is_established_account;
    (eexists; split; [reflexivity|]);
    repeat split; intros F;
    first [float_contra F | vm_compute; reflexivity].
Qed.

(** X12: the displayed account age is a draw from 300..500 for an
    established account and from 1..90 otherwise. *)
Theorem account_age_days
    (handle recent_posts : string) (is_established_account : bool)
    (domain_age_risk profile_pic_stolen urgency_tone_risk
       phishing_link_risk : string) (g : rng) :
  let bd := snd (fst (calculate_risk_score handle recent_posts
                        is_established_account domain_age_risk
                        profile_pic_stolen urgency_tone_risk
                        phishing_link_risk g)) in
  exists days,
    get bd "Account Age (Days)" = Some (VInt days)
    /\ (is_established_account = true -> 300 <= days <= 500)
    /\ (is_established_account = false -> 1 <= days <= 90).
Proof.
  intros bd. subst bd.
  run handle is_established_account;
    (eexists; split; [reflexivity|]);
    split; intros F; first [discriminate F | cbn [snd]; lia].
Qed.

(** X13: whatever the selections are, each entry stays within the maximum
    its key names, and the behavioural points are the keyword points plus the
    urgency points: the cap at 40 never cuts. *)
Theorem documented_maxima
    (handle recent_posts : string) (is_established_account : bool)
    (domain_age_risk profile_pic_stolen urgency_tone_risk
       phishing_link_risk : string) (g : rng) :
  let bd := snd (fst (calculate_risk_score handle recent_posts
                        is_established_account domain_age_risk
                        profile_pic_stolen urgency_tone_risk
                        phishing_link_risk g)) in
  exists identity keyword urgency behavior network,
    get bd "Identity Risk Points (Max 45)" = Some (VInt identity)
    /\ get bd "Keyword Scan Points (Max 25)" = Some (VInt keyword)
    /\ get bd "Urgency Tone Points (Max 15)" = Some (VInt urgency)
    /\ get bd "Behavioral Risk Points (Max 40)" = Some (VInt behavior)
    /\ get bd "Network/Metadata Risk Points (Max 15)" = Some (VInt network)
    /\ 0 <= identity <= 45
    /\ 0 <= keyword <= 25
    /\ 0 <= urgency <= 15
    /\ 0 <= behavior <= 40
    /\ 0 <= network <= 15
    /\ behavior = keyword + urgency.
Proof.
  intros bd. subst bd.
  run_bounded handle recent_posts is_established_account;
    do 5 eexists;
    do 5 (split; [reflexivity|]);
    cbn [fst snd]; repeat split; lia.
Qed.

(** X14: the final score is the sum of the three contributions of the
    breakdown plus a jitter in -5..5, clamped to 0..100; it is within 5 of
    that sum. *)
Theorem score_is_clamped_sum
    (handle recent_posts : string) (is_established_account : bool)
    (domain_age_risk profile_pic_stolen urgency_tone_risk
       phishing_link_risk : string) (g : rng) :
  let run := fst (calculate_risk_score handle recent_posts
                    is_established_account domain_age_risk
                    profile_pic_stolen urgency_tone_risk
                    phishing_link_risk g) in
  exists identity behavior network jitter,
    get (snd run) "Identity Risk Points (Max 45)" = Some (VInt identity)
    /\ get (snd run) "Behavioral Risk Points (Max 40)"
       = Some (VInt behavior)
    /\ get (snd run) "Network/Metadata Risk Points (Max 15)"
       = Some (VInt network)
    /\ -5 <= jitter <= 5
    /\ fst run
       = Z.max (Z.min (identity + behavior + network + jitter) 100) 0
    /\ Z.abs (fst run - (identity + behavior + network)) <= 5.
Proof.
  intros r. subst r.
  run_bounded handle recent_posts is_established_account;
    do 4 eexists;
    do 3 (split; [reflexivity|]);
    cbn [fst snd];
    (split; [|split; [reflexivity|]]); lia.
Qed.

(** X15: the range of the final score for each similarity level. *)
Theorem score_range_by_level
    (handle recent_posts : string) (is_established_account : bool)
    (domain_age_risk profile_pic_stolen urgency_tone_risk
       phishing_link_risk : string) (g : rng) :
  let level := get_similarity_score handle OFFICIAL_HANDLE in
  let score := fst (fst (calculate_risk_score handle recent_posts
                           is_established_account domain_age_risk
                           profile_pic_stolen urgency_tone_risk
                           phishing_link_risk g)) in
  (level = 1.0%float -> 0 <= score <= 60)
  /\ (level = 0.99%float -> 38 <= score <= 100)
  /\ (level = 0.90%float -> 20 <= score <= 90)
  /\ (level = 0.20%float -> 0 <= score <= 70).
Proof.
  intros level score. subst level score.
  run_bounded handle recent_posts is_established_account;
    cbn [fst snd];
    repeat match goal with |- _ /\ _ => split end;
    intros F; first [float_contra F | lia].
Qed.

(** Run the aggregator symbolically at a known level [E]. *)
Ltac run_at E est :=
  unfold calculate_risk_score, bind, ret;
  rewrite E; float_tests;
  destruct est; cbn [negb]; cbv beta iota;
  repeat (draw; cbv beta iota).

Lemma score_clamped
    (handle recent_posts : string) (is_established_account : bool)
    (domain_age_risk profile_pic_stolen urgency_tone_risk
       phishing_link_risk : string) (g : rng) :
  0 <= fst (fst (calculate_risk_score handle recent_posts
                   is_established_account domain_age_risk profile_pic_stolen
                   urgency_tone_risk phishing_link_risk g)) <= 100.
Proof.
  run handle is_established_account; cbn [fst]; lia.
Qed.

Lemma confidence_entry
    (handle recent_posts : string) (is_established_account : bool)
    (domain_age_risk profile_pic_stolen urgency_tone_risk
       phishing_link_risk : string) (g : rng) :
  exists c,
    get (snd (fst (calculate_risk_score handle recent_posts
                     is_established_account domain_age_risk
                     profile_pic_stolen urgency_tone_risk
                     phishing_link_risk g)))
        "Confidence Score (%)" = Some (VFloat c)
    /\ float_between 70.0 99.9 c.
Proof.
  run handle is_established_account;
    (eexists; split; [reflexivity|]);
    apply round2_range;
    first [apply high_confidence_band; assumption
          | apply low_confidence_band; assumption].
Qed.

(** X16: a handle that matches the official one, case and surrounding
    whitespace apart, scores at most 60 and is never put in the HIGH tier. *)
Theorem official_handle_never_high
    (handle recent_posts : string) (is_established_account : bool)
    (domain_age_risk profile_pic_stolen urgency_tone_risk
       phishing_link_risk : string) (g : rng) :
  Py.strip (Py.lower handle) = Py.strip (Py.lower OFFICIAL_HANDLE) ->
  let score := fst (fst (calculate_risk_score handle recent_posts
                           is_established_account domain_age_risk
                           profile_pic_stolen urgency_tone_risk
                           phishing_link_risk g)) in
  score <= 60
  /\ snd (get_action_suggestion score) <> tier_label HIGH.
Proof.
  intros E score. apply exact_level_iff in E.
  assert (score <= 60) as L.
  { subst score. unfold calculate_risk_score, bind, ret.
    abstract_keyword_points recent_posts.
    abstract_points 15; abstract_points 3; abstract_points 3;
      abstract_points 4.
    rewrite E; float_tests.
    destruct is_established_account; cbn [negb]; cbv beta iota;
      repeat (draw; cbv beta iota); cbn [fst snd]; lia. }
  split; [exact L|].
  destruct (advisor_cases score) as [[L1 E1]|[[L1 E1]|[L1 E1]]];
    [lia | | ]; rewrite E1; discriminate.
Qed.

(** X17: the official handle, a post without fraud keywords, an established
    account and every selection at its lowest give three contributions of 0,
    a score between 0 and 5, and the LOW advice. *)
Theorem lowest_risk_scenario (handle recent_posts : string) (g : rng) :
  Py.strip (Py.lower handle) = Py.strip (Py.lower OFFICIAL_HANDLE) ->
  keyword_scan_score recent_posts = 0 ->
  let run := fst (calculate_risk_score handle recent_posts true
                    (domain_option LowDomainRisk) (picture_option false)
                    (urgency_option LowUrgency)
                    (phishing_option NoSuspicion) g) in
  get (snd run) "Identity Risk Points (Max 45)" = Some (VInt 0)
  /\ get (snd run) "Behavioral Risk Points (Max 40)" = Some (VInt 0)
  /\ get (snd run) "Network/Metadata Risk Points (Max 15)" = Some (VInt 0)
  /\ 0 <= fst run <= 5
  /\ get_action_suggestion (fst run) = get_action_suggestion 39.
Proof.
  intros E K r. subst r. apply exact_level_iff in E.
  unfold calculate_risk_score, bind, ret.
  rewrite E, K; float_tests.
  repeat (draw; cbv beta iota). cbn [fst snd].
  repeat match goal with
    | |- context [Z.min ?a 40] =>
        let v := eval vm_compute in (Z.min a 40) in
        change (Z.min a 40) with v
    | |- context [Z.min ?a 15] =>
        let v := eval vm_compute in (Z.min a 15) in
        change (Z.min a 15) with v
    end.
  repeat match goal with |- _ /\ _ => split end; try reflexivity; try lia.
  match goal with
  | |- get_action_suggestion ?s = _ =>
      destruct (advisor_cases s) as [[La Ea]|[[La Ea]|[La Ea]]];
        [exfalso | exfalso | exact Ea]
  end; lia.
Qed.

End AggregatorMore.

(** ** Interactive Shell: properties *)

(** X23: the class of the risk banner is "high", "medium" or "low" by the
    same thresholds as the tier, and the style sheet has a rule for it. *)
Theorem banner_class_of_score (score : Z) :
  let label := snd (get_action_suggestion score) in
  (70 <= score -> css_class label = "high")
  /\ (40 <= score < 70 -> css_class label = "medium")
  /\ (score < 40 -> css_class label = "low")
  /\ occurs_in (".risk-" ++ css_class label ++ " {") DASHBOARD_CSS.
Proof.
  intros label. subst label.
  destruct (advisor_cases score) as [[L E]|[[L E]|[L E]]]; rewrite E;
    repeat match goal with |- _ /\ _ => split end;
    try (intros; first [lia | reflexivity]);
    apply contains_occurs; vm_compute; reflexivity.
Qed.

(** The report holds the score and the three candidate texts. *)
Lemma report_embeds_inputs
    (float_str : float -> string) (timestamp : string)
    (final_score : Z) (bd : breakdown)
    (suspect_url suspect_handle suspect_posts suggestion_text
       risk_label : string) :
  let doc := create_html_report float_str timestamp final_score bd
               suspect_url suspect_handle suspect_posts suggestion_text
               risk_label in
  occurs_in (Py.str_of_int final_score) doc
  /\ occurs_in suspect_handle doc
  /\ occurs_in suspect_url doc
  /\ occurs_in suspect_posts doc.
Proof.
  intros doc. subst doc. unfold create_html_report.
  repeat match goal with |- _ /\ _ => split end.
  - apply (concat_piece _ 51). reflexivity.
  - apply (concat_piece _ 81). reflexivity.
  - apply (concat_piece _ 68). reflexivity.
  - apply (concat_piece _ 157). reflexivity.
Qed.

Section ShellFacts.

Context {rng : Type} `{Random rng}.

Variable float_str : float -> string.
Variable timestamp : string.

(** X21: the report of a run of the aggregator shows, in its confidence
    cell, a value between 70.0 and 99.9, and in its total row the score,
    between 0 and 100. *)
Theorem report_of_run
    (handle recent_posts : string) (is_established_account : bool)
    (domain_age_risk profile_pic_stolen urgency_tone_risk
       phishing_link_risk suspect_url : string) (g : rng) :
  let run := fst (calculate_risk_score handle recent_posts
                    is_established_account domain_age_risk
                    profile_pic_stolen urgency_tone_risk
                    phishing_link_risk g) in
  let advice := get_action_suggestion (fst run) in
  let doc := create_html_report float_str timestamp (fst run) (snd run)
               suspect_url handle recent_posts (fst (fst advice))
               (snd advice) in
  exists c,
    float_between 70.0 99.9 c
    /\ occurs_in (">" ++ float_str c ++ "%</td>") doc
    /\ 0 <= fst run <= 100
    /\ occurs_in (Py.str_of_int (fst run) ++ " / 100</td>") doc.
Proof.
  intros r advice doc. subst advice doc.
  destruct (confidence_entry handle recent_posts is_established_account
              domain_age_risk profile_pic_stolen urgency_tone_risk
              phishing_link_risk g) as (c & G & B).
  pose proof (score_clamped handle recent_posts is_established_account
                domain_age_risk profile_pic_stolen urgency_tone_risk
                phishing_link_risk g) as S.
  fold r in G, S. clearbody r.
  exists c. split; [exact B|].
  unfold create_html_report. rewrite G. cbn [fmt].
  split; [|split; [exact S|]].
  - window 140%nat 3%nat. sandwich ">".
  - window 151%nat 2%nat. exists "". eexists. rewrite ?append_assoc.
    reflexivity.
Qed.


Lemma is_empty_false (s : string) : s <> "" -> Py.is_empty s = false.
Proof. destruct s; [contradiction | reflexivity]. Qed.

(** X25: with the three texts filled, whatever the session held before, the
    handler stores a score between 0 and 100 and reports success; the results
    block then shows that score, the advice and the banner of its tier, and a
    downloadable report that holds the score and the three texts. *)
Theorem complete_form_runs (f : form) (st : session_state) (g : rng) :
  f_suspect_url f <> "" ->
  f_suspect_handle f <> "" ->
  f_suspect_posts f <> "" ->
  let r := on_run_click f st g in
  exists score v,
    ss_final_score (fst (fst r)) = Some score
    /\ 0 <= score <= 100
    /\ snd (fst r) = NoticeSuccess "✅ Analysis Complete! See results below."
    /\ results_display float_str timestamp (fst (fst r)) = Shown v
    /\ v_score_metric v = Py.str_of_int score ++ "%"
    /\ v_advice_text v = fst (fst (get_action_suggestion score))
    /\ v_banner v = risk_banner (snd (get_action_suggestion score))
    /\ occurs_in (Py.str_of_int score) (v_download v)
    /\ occurs_in (f_suspect_handle f) (v_download v)
    /\ occurs_in (f_suspect_url f) (v_download v)
    /\ occurs_in (f_suspect_posts f) (v_download v).
Proof.
  intros Eu Eh Ep r. subst r. unfold on_run_click.
  rewrite (is_empty_false _ Eu), (is_empty_false _ Eh),
    (is_empty_false _ Ep). cbn [orb]. unfold bind, ret.
  pose proof (score_clamped (f_suspect_handle f) (f_suspect_posts f)
                (f_risk_profile_selection f
                 =? "Low Risk Profile (Established Account)")%string
                (f_domain_age_risk f) (f_profile_pic_stolen f)
                (f_urgency_tone_risk f) (f_phishing_link_risk f) g) as S.
  destruct (calculate_risk_score _ _ _ _ _ _ _ g) as [[score bd] g'].
  cbn [fst snd] in *. unfold results_display. cbn [ss_final_score
    ss_breakdown ss_suspect_url ss_suspect_handle ss_suspect_posts].
  destruct (get_action_suggestion score) as [[text style] label] eqn:A.
  eexists score, _.
  split; [reflexivity|]. split; [exact S|]. split; [reflexivity|].
  split; [reflexivity|]. rewrite A. cbn [v_score_metric v_advice_text
    v_banner v_download fst snd].
  do 3 (split; [reflexivity|]).
  apply report_embeds_inputs.
Qed.

Lemma click_keeps_display_sound (f : form) (st : session_state) (g : rng) :
  results_display float_str timestamp (fst (fst (on_run_click f st g)))
  <> Failure.
Proof.
  unfold on_run_click.
  destruct (_ || _).
  - discriminate.
  - unfold bind, ret.
    destruct (calculate_risk_score _ _ _ _ _ _ _ g) as [[score bd] g'].
    unfold results_display. cbn [fst snd ss_final_score ss_breakdown
      ss_suspect_url ss_suspect_handle ss_suspect_posts].
    destruct (get_action_suggestion score) as [[text style] label].
    discriminate.
Qed.

Lemma run_clicks_sound (clicks : list form) (g : rng) :
  results_display float_str timestamp
    (fst (run_clicks clicks empty_session g))
  <> Failure.
Proof.
  assert (forall clicks st g,
             results_display float_str timestamp st <> Failure ->
             results_display float_str timestamp
               (fst (run_clicks clicks st g)) <> Failure) as Hall.
  { clear clicks g. induction clicks as [|f rest IH]; intros st g Hst.
    - exact Hst.
    - cbn [run_clicks]. unfold bind.
      pose proof (click_keeps_display_sound f st g) as C.
      destruct (on_run_click f st g) as [[st' n] g'].
      cbn [fst snd] in *. apply IH. exact C. }
  apply Hall. discriminate.
Qed.

(** X26: after any sequence of presses from an empty session the results
    block shows nothing or shows a view; it never reads an absent key. *)
Theorem display_never_fails (clicks : list form) (g : rng) :
  results_display float_str timestamp
    (fst (run_clicks clicks empty_session g)) = Hidden
  \/ exists v,
       results_display float_str timestamp
         (fst (run_clicks clicks empty_session g)) = Shown v.
Proof.
  pose proof (run_clicks_sound clicks g) as S.
  destruct (results_display float_str timestamp
              (fst (run_clicks clicks empty_session g))) as [| |v].
  - left. reflexivity.
  - contradiction.
  - right. exists v. reflexivity.
Qed.

End ShellFacts.

(** ** The properties with a premise, at concrete inputs *)

Lemma official_handle_never_high_witness :
  fst (fst (calculate_risk_score " ODISHA_police "
              "URGENT! Send money now to this wallet address."
              false "High Risk (New/Suspicious Domain)"
              "Yes (Stolen/Official Image Match)"
              "High Urgency (Threat/Panic)"
              "Homoglyph/Typosquatting Detected" 2024)) <= 60
  /\ snd (get_action_suggestion
            (fst (fst (calculate_risk_score " ODISHA_police "
                         "URGENT! Send money now to this wallet address."
                         false "High Risk (New/Suspicious Domain)"
                         "Yes (Stolen/Official Image Match)"
                         "High Urgency (Threat/Panic)"
                         "Homoglyph/Typosquatting Detected" 2024))))
     <> tier_label HIGH.
Proof.
  apply (official_handle_never_high (H := seeded_random)). reflexivity.
Defined.

Lemma lowest_risk_scenario_witness :
  get (snd (fst (calculate_risk_score "odisha_police"
                   "Stay safe during the festival." true
                   (domain_option LowDomainRisk) (picture_option false)
                   (urgency_option LowUrgency)
                   (phishing_option NoSuspicion) 7)))
      "Identity Risk Points (Max 45)" = Some (VInt 0)
  /\ get (snd (fst (calculate_risk_score "odisha_police"
                      "Stay safe during the festival." true
                      (domain_option LowDomainRisk) (picture_option false)
                      (urgency_option LowUrgency)
                      (phishing_option NoSuspicion) 7)))
         "Behavioral Risk Points (Max 40)" = Some (VInt 0)
  /\ get (snd (fst (calculate_risk_score "odisha_police"
                      "Stay safe during the festival." true
                      (domain_option LowDomainRisk) (picture_option false)
                      (urgency_option LowUrgency)
                      (phishing_option NoSuspicion) 7)))
         "Network/Metadata Risk Points (Max 15)" = Some (VInt 0)
  /\ 0 <= fst (fst (calculate_risk_score "odisha_police"
                      "Stay safe during the festival." true
                      (domain_option LowDomainRisk) (picture_option false)
                      (urgency_option LowUrgency)
                      (phishing_option NoSuspicion) 7)) <= 5
  /\ get_action_suggestion
       (fst (fst (calculate_risk_score "odisha_police"
                    "Stay safe during the festival." true
                    (domain_option LowDomainRisk) (picture_option false)
                    (urgency_option LowUrgency)
                    (phishing_option NoSuspicion) 7)))
     = get_action_suggestion 39.
Proof.
  apply (lowest_risk_scenario (H := seeded_random)); reflexivity.
Defined.


Lemma complete_form_runs_witness :
  exists score v,
    ss_final_score (fst (fst (on_run_click sample_form empty_session 2024)))
    = Some score
    /\ 0 <= score <= 100
    /\ snd (fst (on_run_click sample_form empty_session 2024))
       = NoticeSuccess "✅ Analysis Complete! See results below."
    /\ results_display (fun _ => "") ""
         (fst (fst (on_run_click sample_form empty_session 2024))) = Shown v
    /\ v_score_metric v = Py.str_of_int score ++ "%"
    /\ v_advice_text v = fst (fst (get_action_suggestion score))
    /\ v_banner v = risk_banner (snd (get_action_suggestion score))
    /\ occurs_in (Py.str_of_int score) (v_download v)
    /\ occurs_in (f_suspect_handle sample_form) (v_download v)
    /\ occurs_in (f_suspect_url sample_form) (v_download v)
    /\ occurs_in (f_suspect_posts sample_form) (v_download v).
Proof.
  apply (complete_form_runs (H := seeded_random)); discriminate.
Defined.
